(** * ios_sim: simulator discovery, ranking and lifecycle

    A shallow embedding of [apple/internal/templates/ios_sim.template.py]
    (the script behind [bazel run] for [ios_application] targets) and the
    properties of it that the design document states.

    Conventions of the embedding:
    - Python [str] is [string] (a byte string; the text handled by the
      script, version numbers, udids and [simctl] listings, is ASCII);
    - Python [int] is [Z];
    - a function that can raise returns a [result]; a function that runs
      commands lives in the monad [M], which threads the history of the
      commands issued so far and reads their outcome from a [host];
    - [dict]s used as maps are [gmap]s, [set]s are [gset]s, the JSON object
      [simctl_data["devices"]], whose iteration order matters, is an
      association list. *)

From Stdlib Require Import ZArith Ascii String List Bool Lia Sorted.
From stdpp Require Import base option list gmap strings fin_maps.

Open Scope string_scope.
Open Scope list_scope.
Open Scope Z_scope.

(** ** Exceptions and results *)

Inductive exn : Type :=
| CalledProcessError (returncode : Z) (cmd : list string)
| ValueError (literal : string)
| JSONDecodeError
| Exception (message : string)
| KeyboardInterrupt.

Inductive result (A : Type) : Type :=
| Ok (a : A)
| Raise (e : exn).
Arguments Ok {A} a.
Arguments Raise {A} e.

Definition result_bind {A B} (r : result A) (k : A -> result B) : result B :=
  match r with
  | Ok a => k a
  | Raise e => Raise e
  end.

(** ** Python string primitives *)

Module Py.

(** [str.isspace] on the ASCII range: TAB..CR, FS..US and the blank. *)
Definition isspace (c : ascii) : bool :=
  let n := nat_of_ascii c in
  ((9 <=? n) && (n <=? 13) || (28 <=? n) && (n <=? 32))%nat.

Definition isdigit (c : ascii) : bool :=
  let n := nat_of_ascii c in ((48 <=? n) && (n <=? 57))%nat.

Definition digit_value (c : ascii) : Z := Z.of_nat (nat_of_ascii c) - 48.

Fixpoint lstrip (s : string) : string :=
  match s with
  | EmptyString => EmptyString
  | String c r => if isspace c then lstrip r else s
  end.

Fixpoint rstrip (s : string) : string :=
  match s with
  | EmptyString => EmptyString
  | String c r =>
      match rstrip r with
      | EmptyString => if isspace c then EmptyString else String c EmptyString
      | r' => String c r'
      end
  end.

Definition strip (s : string) : string := rstrip (lstrip s).

(** [s.split(sep)] for a one-character separator. *)
Fixpoint split (sep : ascii) (s : string) : list string :=
  match s with
  | EmptyString => [EmptyString]
  | String c r =>
      if Ascii.eqb c sep then EmptyString :: split sep r
      else match split sep r with
           | h :: t => String c h :: t
           | [] => [String c EmptyString]
           end
  end.

(** [s.startswith(p)] *)
Definition startswith (s p : string) : bool := String.prefix p s.

(** [s.find(sub)]: the lowest index where [sub] occurs, or -1. *)
Fixpoint find_from (i : Z) (s sub : string) : Z :=
  if startswith s sub then i
  else match s with
       | EmptyString => -1
       | String _ r => find_from (i + 1) r sub
       end.

Definition find (s sub : string) : Z := find_from 0 s sub.

(** [sub in s] *)
Definition contains (s sub : string) : bool := negb (find s sub =? -1).

Fixpoint drop (n : nat) (s : string) : string :=
  match n, s with
  | O, _ => s
  | S n', String _ r => drop n' r
  | S _, EmptyString => EmptyString
  end.

(** [s.replace(old, new, 1)]: the first occurrence of [old] only. *)
Fixpoint replace1 (s old new : string) : string :=
  if startswith s old then new +:+ drop (String.length old) s
  else match s with
       | EmptyString => EmptyString
       | String c r => String c (replace1 r old new)
       end.

(** [s.replace(old, new)] for a one-character [old]. *)
Fixpoint replace_char (s : string) (old : ascii) (new : string) : string :=
  match s with
  | EmptyString => EmptyString
  | String c r =>
      (if Ascii.eqb c old then new else String c EmptyString)
        +:+ replace_char r old new
  end.

(** [s.casefold()], on ASCII text: upper-case letters to lower case. *)
Definition casefold_char (c : ascii) : ascii :=
  let n := nat_of_ascii c in
  if ((65 <=? n) && (n <=? 90))%nat then ascii_of_nat (n + 32) else c.

Fixpoint casefold (s : string) : string :=
  match s with
  | EmptyString => EmptyString
  | String c r => String (casefold_char c) (casefold r)
  end.

(** Truthiness of a [str]: empty is false. *)
Definition truthy (s : string) : bool := negb (String.eqb s EmptyString).

(** The digits of a decimal literal: at least one digit, single underscores
    allowed between digits only. *)
Fixpoint digits (acc : Z) (after_digit : bool) (s : string) : option Z :=
  match s with
  | EmptyString => if after_digit then Some acc else None
  | String c r =>
      if isdigit c then digits (10 * acc + digit_value c) true r
      else if Ascii.eqb c "_" then
             if after_digit then digits acc false r else None
      else None
  end.

(** The blanks [int] skips around a literal on ASCII text: TAB..CR and the
    space (the separators FS..US, which [str.strip] removes, are not
    skipped). *)
Definition int_blank (c : ascii) : bool :=
  let n := nat_of_ascii c in
  ((9 <=? n) && (n <=? 13) || (n =? 32))%nat.

Fixpoint int_lstrip (s : string) : string :=
  match s with
  | EmptyString => EmptyString
  | String c r => if int_blank c then int_lstrip r else s
  end.

Fixpoint int_rstrip (s : string) : string :=
  match s with
  | EmptyString => EmptyString
  | String c r =>
      match int_rstrip r with
      | EmptyString => if int_blank c then EmptyString else String c EmptyString
      | r' => String c r'
      end
  end.

(** [int(s)]: surrounding blanks, an optional sign, decimal digits.
    Anything else is a [ValueError]. The interpreter's configurable cap on
    the number of digits of a literal (4300 by default in recent versions)
    is not part of the model. *)
Definition int (s : string) : result Z :=
  let body := int_rstrip (int_lstrip s) in
  let parsed :=
    match body with
    | String "+" r => digits 0 false r
    | String "-" r => Z.opp <$> digits 0 false r
    | _ => digits 0 false body
    end in
  match parsed with
  | Some n => Ok n
  | None => Raise (ValueError s)
  end.

(** [os.path.join(a, b)] on POSIX. *)
Definition path_join (a b : string) : string :=
  if startswith b "/" then b
  else if negb (truthy a) then b
  else if String.eqb (drop (String.length a - 1) a) "/" then a +:+ b
  else a +:+ "/" +:+ b.

End Py.

(** ** VersionKey: [minimum_os_to_simctl_runtime_version] *)

Definition minimum_os_to_simctl_runtime_version (minimum_os : string)
  : result Z :=
  (* Pad the minimum OS version to major.minor.micro. *)
  let minimum_os_components :=
    take 3 (Py.split "." minimum_os ++ replicate 3 "0") in
  foldl (fun acc component =>
           result_bind acc (fun result =>
           result_bind (Py.int component) (fun n =>
           Ok (Z.lor (Z.shiftl result 8) n))))
        (Ok 0) minimum_os_components.

(** ** The catalog printed by [simctl list -j] *)

(** The records of the JSON payload. Keys read with [.get] are optional;
    the others are read with [[]] by the script and are plain fields. *)
Record devicetype_json := {
  dt_name : string;
  dt_identifier : string;
  dt_productFamily : option string;
  dt_maxRuntimeVersion : option Z
}.

Record runtime_json := {
  rt_identifier : string;
  rt_version : string;
  rt_isAvailable : bool
}.

Record device_json := {
  d_name : string;
  d_udid : string;
  d_state : string;
  d_deviceTypeIdentifier : string;
  d_isAvailable : bool
}.

Record simctl_json := {
  devicetypes : list devicetype_json;
  runtimes : list runtime_json;
  devices : list (string * list device_json)
}.

(** [class DeviceType]: the [devicetype] dictionary with its position in
    the listing. *)
Module DeviceType.

Record t := make {
  device_type : devicetype_json;
  simctl_list_index : nat
}.

Definition has_product_family_or_identifier (self : t) (family : string)
  : bool :=
  match dt_productFamily (device_type self) with
  | Some product_family =>
      if Py.truthy product_family then String.eqb product_family family
      else Py.contains (dt_identifier (device_type self)) family
  | None =>
      (* Some older simulators are missing productFamily. *)
      Py.contains (dt_identifier (device_type self)) family
  end.

Definition is_iphone (self : t) : bool :=
  has_product_family_or_identifier self "iPhone".

Definition is_ipad (self : t) : bool :=
  has_product_family_or_identifier self "iPad".

(** [__lt__] *)
Definition lt (self other : t) : bool :=
  if is_ipad self && is_iphone other then true
  else if is_iphone self && is_ipad other then false
  else (simctl_list_index self <? simctl_list_index other)%nat.

End DeviceType.

(** [class Device]: the [device] dictionary with its device type. *)
Module Device.

Record t := make {
  device : device_json;
  device_type : DeviceType.t
}.

Definition is_shutdown (self : t) : bool :=
  String.eqb (d_state (device self)) "Shutdown".

Definition is_booted (self : t) : bool :=
  String.eqb (d_state (device self)) "Booted".

(** [__lt__] *)
Definition lt (self other : t) : bool :=
  if is_shutdown self && is_booted other then true
  else if is_booted self && is_shutdown other then false
  else DeviceType.lt (device_type self) (device_type other).

End Device.

(** ** [list.sort()]

    A stable sort that only uses [__lt__]: each element, in the order of
    the input, goes before the first element it is less than. This is the
    list [list.sort()] produces whenever [__lt__] is a strict weak order on
    the elements, which is where the properties below use it: the device
    types of one family each, and the instances that are Booted or
    Shutdown on such device types. Where [__lt__] is not one (a device type
    in both families, an instance in a third state) the order of the
    result depends on the sorting algorithm, and only facts that hold of
    any rearrangement of the input are stated there. *)
Section Sort.
Context {A : Type} (lt : A -> A -> bool).

Fixpoint insort (x : A) (l : list A) : list A :=
  match l with
  | [] => [x]
  | y :: l' => if lt x y then x :: y :: l' else y :: insort x l'
  end.

Definition sort (l : list A) : list A :=
  foldl (fun acc x => insort x acc) [] l.

(** "not after": what a stable sort establishes between an element and
    every later one. *)
Definition not_after (x y : A) : Prop := lt y x = false.
End Sort.

(** ** Selection, without the command that fetches the catalog *)

(** The three tests of the device-type loop; [false] is [continue]. *)
Definition device_type_is_compatible (minimum_runtime_version : Z)
    (sim_device : string) (device_type : DeviceType.t) : bool :=
  if negb (DeviceType.is_iphone device_type || DeviceType.is_ipad device_type)
  then false
  else
    (* Some older simulators are missing maxRuntimeVersion. *)
    let max_runtime_version :=
      dt_maxRuntimeVersion (DeviceType.device_type device_type) in
    if match max_runtime_version with
       | Some v => negb (v =? 0) && (v <? minimum_runtime_version)
       | None => false
       end
    then false
    else if Py.truthy sim_device &&
            (Py.find (Py.casefold (dt_name (DeviceType.device_type device_type)))
                     sim_device =? -1)
    then false
    else true.

(** [enumerate(simctl_data["devicetypes"])], each entry wrapped. *)
Definition enumerate_device_types (simctl_data : simctl_json)
  : list DeviceType.t :=
  imap (fun simctl_list_index device_type =>
          DeviceType.make device_type simctl_list_index)
       (devicetypes simctl_data).

Definition compatible_device_types (simctl_data : simctl_json)
    (minimum_runtime_version : Z) (sim_device : string)
  : list DeviceType.t :=
  sort DeviceType.lt
    (List.filter (device_type_is_compatible minimum_runtime_version sim_device)
       (enumerate_device_types simctl_data)).

Definition compatible_runtime_identifiers (simctl_data : simctl_json)
    (sim_os_version : string) : gset string :=
  foldl (fun acc runtime =>
           if negb (rt_isAvailable runtime) then acc
           else if Py.truthy sim_os_version &&
                   negb (String.eqb (rt_version runtime) sim_os_version)
           then acc
           else acc ∪ {[ rt_identifier runtime ]})
        ∅ (runtimes simctl_data).

Definition compatible_devices (simctl_data : simctl_json)
    (compatible_device_types : list DeviceType.t)
    (compatible_runtime_identifiers : gset string) : list Device.t :=
  sort Device.lt
    (flat_map
       (fun '(runtime_identifier, devices) =>
          if decide (runtime_identifier ∈ compatible_runtime_identifiers)
          then
            omap (fun device =>
                    if negb (d_isAvailable device) then None
                    else
                      Device.make device <$>
                        List.find
                          (fun device_type =>
                             String.eqb (d_deviceTypeIdentifier device)
                               (dt_identifier
                                  (DeviceType.device_type device_type)))
                          compatible_device_types)
                 devices
          else [])
       (devices simctl_data)).

(** [sim_device and sim_device.casefold()]: the name filter prepared for
    case-insensitive matching. *)
Definition folded (sim_device : string) : string :=
  if Py.truthy sim_device then Py.casefold sim_device else sim_device.

(** What [discover_best_compatible_simulator] computes from the parsed
    catalog: [l[-1]] of each sorted list, [None] when it is empty. *)
Definition best_compatible (simctl_data : simctl_json)
    (minimum_runtime_version : Z) (sim_device sim_os_version : string)
  : option DeviceType.t * option Device.t :=
  let sim_device := folded sim_device in
  let compatible_device_types :=
    compatible_device_types simctl_data minimum_runtime_version sim_device in
  let compatible_runtime_identifiers :=
    compatible_runtime_identifiers simctl_data sim_os_version in
  let compatible_devices :=
    compatible_devices simctl_data compatible_device_types
      compatible_runtime_identifiers in
  (last compatible_device_types, last compatible_devices).

(** ** Commands and the host

    Every effect of the script that the properties speak about is a child
    process started with [subprocess.run] or [subprocess.Popen], or a
    [time.sleep]. The history records them in order. The host decides the
    exit status and the captured standard output of a command from the
    command line and from what has happened so far, so that a listing can
    change between two polls. The executables exist on the host: a command
    always runs to an exit status. *)

Inductive event : Type :=
| Run (args : list string) (env : option (gmap string string))
| Sleep (seconds : Z).

Record CompletedProcess := {
  returncode : Z;
  stdout : string
}.

Record host := {
  (** outcome of a child process, given the history *)
  run_process : list event -> list string -> CompletedProcess;
  (** [os.environ] *)
  os_environ : gmap string string;
  (** [json.load] followed by the typed view of the payload *)
  json_load : string -> option simctl_json;
  (** the file-system side of [extracted_app] and [bundle_id] *)
  extract_app : string -> string -> result string;
  read_bundle_id : string -> result string
}.

Definition M (A : Type) : Type := host -> list event -> result A * list event.

Definition ret {A} (a : A) : M A := fun _ t => (Ok a, t).

Definition raise {A} (e : exn) : M A := fun _ t => (Raise e, t).

Definition bind {A B} (m : M A) (k : A -> M B) : M B :=
  fun h t =>
    match m h t with
    | (Ok a, t') => k a h t'
    | (Raise e, t') => (Raise e, t')
    end.

Definition lift {A} (r : result A) : M A := fun _ t => (r, t).

Definition ask : M host := fun h t => (Ok h, t).

Declare Scope cmd_scope.
Delimit Scope cmd_scope with cmd.
Notation "x <- m ;; k" := (bind m (fun x => k))
  (at level 100, m at next level, right associativity) : cmd_scope.
Notation "m ;; k" := (bind m (fun _ => k))
  (at level 100, right associativity) : cmd_scope.
Open Scope cmd_scope.

(** [try: m finally: fin] *)
Definition try_finally {A} (m : M A) (fin : M unit) : M A :=
  fun h t =>
    match m h t with
    | (r, t1) =>
        match fin h t1 with
        | (Ok _, t2) => (r, t2)
        | (Raise e, t2) => (Raise e, t2)
        end
    end.

(** [subprocess.run(args, env=env, check=check)] *)
Definition subprocess_run (args : list string)
    (env : option (gmap string string)) (check : bool) : M CompletedProcess :=
  fun h t =>
    let completed := run_process h t args in
    let t' := t ++ [Run args env] in
    if check && negb (returncode completed =? 0)
    then (Raise (CalledProcessError (returncode completed) args), t')
    else (Ok completed, t').

(** [time.sleep(seconds)] *)
Definition sleep (seconds : Z) : M unit :=
  fun _ t => (Ok tt, t ++ [Sleep seconds]).

(** ** Generator-based context managers

    A [@contextlib.contextmanager] generator runs up to its single
    [yield]; what is left of it is resumed when the [with] block is left,
    normally ([None]) or with the exception the block raised. *)
Record yielded (A : Type) := {
  value : A;
  resume : option exn -> M unit
}.
Arguments value {A} y.
Arguments resume {A} y o.

Definition generator (A : Type) : Type := M (yielded A).

(** [yield a] as the last statement of the generator. *)
Definition yield {A} (a : A) : generator A :=
  ret {| value := a;
         resume := fun o => match o with
                            | None => ret tt
                            | Some e => raise e
                            end |}.

(** [try: g finally: fin] around the [yield]. *)
Definition gen_try_finally {A} (g : generator A) (fin : M unit)
  : generator A :=
  fun h t =>
    match g h t with
    | (Ok y, t1) =>
        (Ok {| value := value y;
               resume := fun o => try_finally (resume y o) fin |}, t1)
    | (Raise e, t1) => try_finally (raise e) fin h t1
    end.

(** [with g as x: body x]. An exception of the block is thrown into the
    generator; it is suppressed only if the generator then returns. *)
Definition with_ {A} (g : generator A) (body : A -> M unit) : M unit :=
  fun h t =>
    match g h t with
    | (Raise e, t1) => (Raise e, t1)
    | (Ok y, t1) =>
        match body (value y) h t1 with
        | (Ok _, t2) => resume y None h t2
        | (Raise e, t2) => resume y (Some e) h t2
        end
    end.

(** ** Discovery *)

Definition discover_best_compatible_simulator
    (simctl_path minimum_os sim_device sim_os_version : string)
  : M (option DeviceType.t * option Device.t) :=
  fun h t =>
    let cmd := [simctl_path; "list"; "-j"] in
    let process := run_process h t cmd in
    let t' := t ++ [Run cmd None] in
    match json_load h (stdout process) with
    | None => (Raise JSONDecodeError, t')
    | Some simctl_data =>
        if negb (returncode process =? 0)
        then (Raise (CalledProcessError (returncode process) cmd), t')
        else
          match minimum_os_to_simctl_runtime_version minimum_os with
          | Raise e => (Raise e, t')
          | Ok minimum_runtime_version =>
              (Ok (best_compatible simctl_data minimum_runtime_version
                     sim_device sim_os_version), t')
          end
    end.

(** ** Persistent mode *)

Definition persistent_ios_simulator
    (simctl_path minimum_os sim_device sim_os_version : string) : M string :=
  best <- discover_best_compatible_simulator simctl_path minimum_os
            sim_device sim_os_version ;;
  match best with
  | (_, Some best_compatible_device) =>
      let udid := d_udid (Device.device best_compatible_device) in
      if Device.is_shutdown best_compatible_device
      then subprocess_run [simctl_path; "boot"; udid] None true ;; ret udid
      else ret udid
  | (Some best_compatible_device_type, None) =>
      let device_name :=
        dt_name (DeviceType.device_type best_compatible_device_type) in
      let device_id :=
        dt_identifier (DeviceType.device_type best_compatible_device_type) in
      create_result <-
        subprocess_run [simctl_path; "create"; device_name; device_id]
          None true ;;
      ret (Py.rstrip (stdout create_result))
  | (None, None) =>
      raise (Exception
        ("Could not find or create a simulator compatible with minimum OS version "
           +:+ minimum_os +:+ " (device name " +:+ sim_device
           +:+ ", OS version " +:+ sim_os_version +:+ ")"))
  end.

(** ** Boot Wait *)

Definition line_reports_booted (udid line : string) : bool :=
  negb (Py.find line udid =? -1) && negb (Py.find line "Booted" =? -1).

(** The inner [for line in ...stdout.split("\n")]: is there a line that
    holds both the udid and "Booted"? *)
Definition listing_reports_booted (udid listing : string) : bool :=
  existsb (line_reports_booted udid) (Py.split "010" listing).

(** The body of [for _ in range(0, 60)], [n] iterations to go. *)
Fixpoint wait_for_sim_to_boot_loop (n : nat) (simctl_path udid : string)
  : M bool :=
  match n with
  | O => ret false
  | S n' =>
      simctl_list_result <-
        subprocess_run [simctl_path; "list"; "devices"] None true ;;
      if listing_reports_booted udid (stdout simctl_list_result)
      then ret true
      else sleep 1 ;; wait_for_sim_to_boot_loop n' simctl_path udid
  end.

Definition wait_for_sim_to_boot (simctl_path udid : string) : M bool :=
  wait_for_sim_to_boot_loop 60 simctl_path udid.

Definition boot_simulator (developer_path simctl_path udid : string)
  : M unit :=
  let simulator_path :=
    Py.path_join developer_path "Applications/Simulator.app" in
  subprocess_run
    ["open"; "-a"; simulator_path; "--args"; "-CurrentDeviceUDID"; udid]
    None true ;;
  booted <- wait_for_sim_to_boot simctl_path udid ;;
  if negb booted
  then raise (Exception ("Failed to launch simulator with UDID: " +:+ udid))
  else ret tt.

(** ** Ephemeral mode *)

Definition temporary_ios_simulator (simctl_path device version : string)
  : generator string :=
  let runtime_version_name := Py.replace_char version "." "-" in
  simctl_create_result <-
    subprocess_run
      [simctl_path; "create"; "TestDevice"; device;
       "com.apple.CoreSimulator.SimRuntime.iOS-" +:+ runtime_version_name]
      None true ;;
  let udid := Py.rstrip (stdout simctl_create_result) in
  gen_try_finally
    (subprocess_run ["pkill"; "Simulator"] None false ;;
     yield udid)
    (subprocess_run [simctl_path; "shutdown"; udid] None false ;;
     subprocess_run [simctl_path; "delete"; udid] None true ;;
     ret tt).

(** ** Running the application *)

Definition extracted_app (ios_application_output_path app_name : string)
  : generator string :=
  h <- ask ;;
  app_path <- lift (extract_app h ios_application_output_path app_name) ;;
  yield app_path.

Definition bundle_id (bundle_path : string) : M string :=
  h <- ask ;;
  lift (read_bundle_id h bundle_path).

(** The body of [for k, v in os.environ.items()]. *)
Definition launch_environ_step (k v : string) (result : gmap string string)
  : gmap string string :=
  if negb (Py.startswith k "IOS_") then result
  else
    let new_key := Py.replace1 k "IOS_" "SIMCTL_CHILD_" in
    <[new_key := v]> result.

(** [simctl_launch_environ] as a function of [os.environ]. *)
Definition simctl_launch_environ_of (environ : gmap string string)
  : gmap string string :=
  let result := map_fold launch_environ_step ∅ environ in
  if decide ("IDE_DISABLED_OS_ACTIVITY_DT_MODE" ∈ dom environ)
  then result
  else
    (* Ensure os_log() mirrors writes to stderr. *)
    <["SIMCTL_CHILD_OS_ACTIVITY_DT_MODE" := "enable"]> result.

Definition simctl_launch_environ : M (gmap string string) :=
  h <- ask ;;
  ret (simctl_launch_environ_of (os_environ h)).

(** The top-level choice: the persistent path, whatever the arguments
    (the branch on [sim_device and sim_os_version] is commented out in the
    script). *)
Definition ios_simulator
    (simctl_path minimum_os sim_device sim_os_version : string)
  : generator string :=
  udid <- persistent_ios_simulator simctl_path minimum_os sim_device
            sim_os_version ;;
  yield udid.

Definition run_app_in_simulator
    (simulator_udid developer_path simctl_path ios_application_output_path
       app_name : string) : M unit :=
  boot_simulator developer_path simctl_path simulator_udid ;;
  with_ (extracted_app ios_application_output_path app_name)
    (fun app_path =>
       subprocess_run [simctl_path; "install"; simulator_udid; app_path]
         None true ;;
       app_bundle_id <- bundle_id app_path ;;
       let args :=
         [simctl_path; "launch"; "--console-pty"; simulator_udid;
          app_bundle_id] in
       env <- simctl_launch_environ ;;
       subprocess_run args (Some env) false ;;
       ret tt).

Definition main
    (sim_device sim_os_version ios_application_output_path app_name
       minimum_os : string) : M unit :=
  xcode_select_result <- subprocess_run ["xcode-select"; "-p"] None true ;;
  let developer_path := Py.rstrip (stdout xcode_select_result) in
  let simctl_path :=
    Py.path_join (Py.path_join (Py.path_join developer_path "usr") "bin")
      "simctl" in
  with_ (ios_simulator simctl_path minimum_os sim_device sim_os_version)
    (fun simulator_udid =>
       run_app_in_simulator simulator_udid developer_path simctl_path
         ios_application_output_path app_name).

(** ** VersionKey: the encoding *)

(** The components the loop of [minimum_os_to_simctl_runtime_version]
    runs over. *)
Definition first_three_components (minimum_os : string) : list string :=
  take 3 (Py.split "." minimum_os ++ replicate 3 "0").

(** The value the loop leaves in [result] after three components. *)
Definition pack (major minor micro : Z) : Z :=
  Z.lor (Z.lor (Z.shiftl major 16) (Z.shiftl minor 8)) micro.

(** The encoding as the design document words it: every component masked
    to a byte before it is packed. *)
Definition spec_masked_pack (major minor micro : Z) : Z :=
  Z.lor (Z.lor (Z.shiftl (Z.land major 255) 16) (Z.shiftl (Z.land minor 255) 8))
        (Z.land micro 255).

(** The version triple as the design document words it: up to three
    dot-separated non-negative integers, missing trailing ones being 0. *)
Definition spec_component (s : string) : option Z :=
  match Py.int s with
  | Ok n => if 0 <=? n then Some n else None
  | Raise _ => None
  end.

Definition spec_version_tuple (v : string) : option (Z * Z * Z) :=
  match Py.split "." v with
  | [a] => major ← spec_component a; Some (major, 0, 0)
  | [a; b] =>
      major ← spec_component a; minor ← spec_component b;
      Some (major, minor, 0)
  | [a; b; c] =>
      major ← spec_component a; minor ← spec_component b;
      micro ← spec_component c; Some (major, minor, micro)
  | _ => None
  end.

Definition lex_lt (x y : Z * Z * Z) : Prop :=
  let '(x1, x2, x3) := x in
  let '(y1, y2, y3) := y in
  x1 < y1 \/ (x1 = y1 /\ (x2 < y2 \/ (x2 = y2 /\ x3 < y3))).

Definition fits_in_bytes (x : Z * Z * Z) : Prop :=
  let '(_, minor, micro) := x in minor <= 255 /\ micro <= 255.

Definition key_of (x : Z * Z * Z) : Z :=
  let '(major, minor, micro) := x in pack major minor micro.

(** ** Hosts used to run the script on concrete scenarios *)

Module Fixture.

Definition completed (code : Z) (out : string) : CompletedProcess :=
  {| returncode := code; stdout := out |}.

(** A host on which every command succeeds and prints [out], with the
    catalog [catalog] behind any JSON payload. *)
Definition quiet_host (out : string) (catalog : simctl_json) : host :=
  {| run_process := fun _ _ => completed 0 out;
     os_environ := ∅;
     json_load := fun _ => Some catalog;
     extract_app := fun path name => Ok (path +:+ "/" +:+ name +:+ ".app");
     read_bundle_id := fun _ => Ok "com.example.app" |}.

(** The same host with another [os.environ]. *)
Definition with_environ (environ : gmap string string) (h : host) : host :=
  {| run_process := run_process h;
     os_environ := environ;
     json_load := json_load h;
     extract_app := extract_app h;
     read_bundle_id := read_bundle_id h |}.

Definition empty_catalog : simctl_json :=
  {| devicetypes := []; runtimes := []; devices := [] |}.

End Fixture.

(** A small catalog: two iPads around an iPhone, and three devices. *)
Module Catalog.

Definition ipad_air : devicetype_json :=
  {| dt_name := "iPad Air";
     dt_identifier := "com.apple.CoreSimulator.SimDeviceType.iPad-Air";
     dt_productFamily := Some "iPad";
     dt_maxRuntimeVersion := Some 0x0C0000 |}.

Definition iphone_8 : devicetype_json :=
  {| dt_name := "iPhone 8";
     dt_identifier := "com.apple.CoreSimulator.SimDeviceType.iPhone-8";
     dt_productFamily := Some "iPhone";
     dt_maxRuntimeVersion := None |}.

Definition ipad_pro : devicetype_json :=
  {| dt_name := "iPad Pro";
     dt_identifier := "com.apple.CoreSimulator.SimDeviceType.iPad-Pro";
     dt_productFamily := None;
     dt_maxRuntimeVersion := Some 0xFFFFFFFF |}.

Definition ios_13 : runtime_json :=
  {| rt_identifier := "com.apple.CoreSimulator.SimRuntime.iOS-13-2";
     rt_version := "13.2";
     rt_isAvailable := true |}.

Definition phone_shutdown : device_json :=
  {| d_name := "My iPhone";
     d_udid := "AAAA-1111";
     d_state := "Shutdown";
     d_deviceTypeIdentifier := dt_identifier iphone_8;
     d_isAvailable := true |}.

Definition pad_booted : device_json :=
  {| d_name := "My iPad";
     d_udid := "BBBB-2222";
     d_state := "Booted";
     d_deviceTypeIdentifier := dt_identifier ipad_pro;
     d_isAvailable := true |}.

Definition types_only : simctl_json :=
  {| devicetypes := [ipad_air; iphone_8; ipad_pro];
     runtimes := [ios_13];
     devices := [(rt_identifier ios_13, [])] |}.

Definition with_shutdown_phone : simctl_json :=
  {| devicetypes := [ipad_air; iphone_8; ipad_pro];
     runtimes := [ios_13];
     devices := [(rt_identifier ios_13, [phone_shutdown])] |}.

Definition with_booted_pad : simctl_json :=
  {| devicetypes := [ipad_air; iphone_8; ipad_pro];
     runtimes := [ios_13];
     devices := [(rt_identifier ios_13, [phone_shutdown; pad_booted])] |}.

(** A device type whose maximum runtime version is the integer 0. *)
Definition iphone_zero : devicetype_json :=
  {| dt_name := "iPhone 0";
     dt_identifier := "com.apple.CoreSimulator.SimDeviceType.iPhone-0";
     dt_productFamily := Some "iPhone";
     dt_maxRuntimeVersion := Some 0 |}.

(** Two device types of older data, without productFamily, whose
    identifiers mention both family names. *)
Definition hybrid_a : devicetype_json :=
  {| dt_name := "Hybrid A";
     dt_identifier := "com.example.SimDeviceType.iPhone-iPad-A";
     dt_productFamily := None;
     dt_maxRuntimeVersion := None |}.

Definition hybrid_b : devicetype_json :=
  {| dt_name := "Hybrid B";
     dt_identifier := "com.example.SimDeviceType.iPhone-iPad-B";
     dt_productFamily := None;
     dt_maxRuntimeVersion := None |}.

Definition hybrids : simctl_json :=
  {| devicetypes := [hybrid_a; hybrid_b]; runtimes := []; devices := [] |}.

Definition zero_only : simctl_json :=
  {| devicetypes := [iphone_zero]; runtimes := []; devices := [] |}.

End Catalog.

(** ** Vocabulary of the ranking properties *)

(** A device type that is an iPhone or an iPad, and not both. The family
    comes from [productFamily] when it is there; only a record without it
    whose identifier mentions both names is in both families. *)
Definition one_family (dt : DeviceType.t) : Prop :=
  xorb (DeviceType.is_iphone dt) (DeviceType.is_ipad dt) = true.

(** A device type that is not in both families. *)
Definition not_both_families (dt : DeviceType.t) : Prop :=
  DeviceType.is_iphone dt && DeviceType.is_ipad dt = false.

(** The family tier of a device type of one family. *)
Definition family_rank (dt : DeviceType.t) : nat :=
  if DeviceType.is_iphone dt then 1 else 0.

(** The outcome of a generator up to its [yield], as a plain result. *)
Definition yielded_value {A} (r : result (yielded A) * list event)
  : result A * list event :=
  match r with
  | (Ok y, t) => (Ok (value y), t)
  | (Raise e, t) => (Raise e, t)
  end.


(** ** Vocabulary of the Boot Wait properties *)

(** [sub] occurs in [s]. *)
Definition occurs_in (sub s : string) : Prop :=
  exists pre post, s = pre +:+ sub +:+ post.

Definition newline : string := String "010" EmptyString.

(** [line] is a line of [listing]: a stretch without a newline that
    starts at the beginning of the listing or right after a newline and
    ends at the end of the listing or right before a newline. *)
Definition line_of (line listing : string) : Prop :=
  ~ occurs_in newline line /\
  exists before after,
    listing = before +:+ line +:+ after /\
    (before = EmptyString \/ exists b, before = b +:+ newline) /\
    (after = EmptyString \/ exists a, after = newline +:+ a).

(** A device listing shows the simulator booted: one of its lines holds
    both the udid and "Booted". *)
Definition shows_booted (udid listing : string) : Prop :=
  exists line,
    line_of line listing /\ occurs_in udid line /\ occurs_in "Booted" line.

Definition list_devices (simctl_path : string) : list string :=
  [simctl_path; "list"; "devices"].

(** The history of [k] polls that did not succeed: a listing, then one
    second of sleep, [k] times. *)
Definition polling (simctl_path : string) (k : nat) : list event :=
  concat (replicate k [Run (list_devices simctl_path) None; Sleep 1]).

(** What the [i]-th poll (counting from 0) sees, the wait having started
    at history [t]. *)
Definition poll_outcome (h : host) (t : list event) (simctl_path : string)
    (i : nat) : CompletedProcess :=
  run_process h (t ++ polling simctl_path i) (list_devices simctl_path).

Definition is_poll (simctl_path : string) (e : event) : bool :=
  match e with
  | Run args None => bool_decide (args = list_devices simctl_path)
  | _ => false
  end.

(** Number of polling attempts in a history. *)
Definition polls_in (simctl_path : string) (t : list event) : nat :=
  length (List.filter (is_poll simctl_path) t).

Definition open_simulator (developer_path udid : string) : list string :=
  ["open"; "-a"; Py.path_join developer_path "Applications/Simulator.app";
   "--args"; "-CurrentDeviceUDID"; udid].

(** Hosts and units of work for concrete runs of the lifecycle. *)
Module Scenario.

(** A host whose device listing never shows the simulator AAAA-1111
    booted, while another simulator is booted, on another line. *)
Definition never_booted : host :=
  Fixture.quiet_host
    ("-- iOS 13.2 --" +:+ String "010"
       ("    Other (BBBB-2222) (Booted)" +:+ String "010"
          "    TestDevice (AAAA-1111) (Shutdown)"))
    Fixture.empty_catalog.

(** A host whose device listing shows the simulator booted from the third
    poll on: the listing depends on how many sleeps have gone by. *)
Definition boots_later : host :=
  {| run_process := fun t _ =>
       if (2 <=? length (List.filter
                           (fun e => match e with Sleep _ => true | _ => false end)
                           t))%nat
       then Fixture.completed 0
              ("Other (BBBB-2222) (Booted)" +:+ String "010"
                 "TestDevice (AAAA-1111) (Booted)")
       else Fixture.completed 0
              ("Other (BBBB-2222) (Booted)" +:+ String "010"
                 "TestDevice (AAAA-1111) (Booting)");
     os_environ := ∅;
     json_load := fun _ => None;
     extract_app := fun path name => Ok path;
     read_bundle_id := fun _ => Ok "com.example.app" |}.

(** A host on which the [simctl] subcommand [verb] exits with status 1 and
    every other command succeeds, printing a udid and a newline. *)
Definition failing (verb : string) : host :=
  {| run_process := fun _ args =>
       if bool_decide (args !! 1%nat = Some verb)
       then Fixture.completed 1 EmptyString
       else Fixture.completed 0 ("AAAA-1111" +:+ String "010" EmptyString);
     os_environ := ∅;
     json_load := fun _ => Some Fixture.empty_catalog;
     extract_app := fun path name => Ok path;
     read_bundle_id := fun _ => Ok "com.example.app" |}.

(** A unit of work that runs one command and then fails. *)
Definition failing_work (udid : string) : M unit :=
  subprocess_run ["simctl"; "install"; udid; "App.app"] None false ;;
  raise (Exception "the unit of work failed").

(** A host whose listings show the simulator booted and on which the
    [simctl] subcommand [verb] exits with status 1. *)
Definition booted_failing (verb : string) : host :=
  {| run_process := fun _ args =>
       if bool_decide (args !! 1%nat = Some verb)
       then Fixture.completed 1 EmptyString
       else Fixture.completed 0 "TestDevice (AAAA-1111) (Booted)";
     os_environ := ∅;
     json_load := fun _ => Some Fixture.empty_catalog;
     extract_app := fun path name => Ok path;
     read_bundle_id := fun _ => Ok "com.example.app" |}.

End Scenario.

(** ** Vocabulary of the selection properties *)

(** The instances the device loop appends to [compatible_devices], in the
    order of the catalog, before they are sorted. *)
Definition candidate_devices (simctl_data : simctl_json)
    (compatible_device_types : list DeviceType.t)
    (compatible_runtime_identifiers : gset string) : list Device.t :=
  flat_map
    (fun '(runtime_identifier, devices) =>
       if decide (runtime_identifier ∈ compatible_runtime_identifiers)
       then
         omap (fun device =>
                 if negb (d_isAvailable device) then None
                 else
                   Device.make device <$>
                     List.find
                       (fun device_type =>
                          String.eqb (d_deviceTypeIdentifier device)
                            (dt_identifier
                               (DeviceType.device_type device_type)))
                       compatible_device_types)
              devices
       else [])
    (devices simctl_data).

(** A runtime that the runtime loop lets through. *)
Definition runtime_is_compatible (sim_os_version : string)
    (runtime : runtime_json) : Prop :=
  rt_isAvailable runtime = true /\
  (Py.truthy sim_os_version = false \/ rt_version runtime = sim_os_version).

(** An instance that is Booted or Shutdown, on a device type of one
    family. *)
Definition settled (d : Device.t) : Prop :=
  (Device.is_booted d = true \/ Device.is_shutdown d = true) /\
  one_family (Device.device_type d).

Definition state_rank (d : Device.t) : nat :=
  if Device.is_booted d then 1 else 0.

(** ** The module body and its [__main__] block *)

(** [try: main(...) except subprocess.CalledProcessError: logger.error(...)
    except KeyboardInterrupt: pass]; any other exception leaves the
    script. *)
Definition main_block
    (sim_device sim_os_version ios_application_output_path app_name
       minimum_os : string) : M unit :=
  fun h t =>
    match main sim_device sim_os_version ios_application_output_path app_name
            minimum_os h t with
    | (Raise (CalledProcessError _ _), t') => (Ok tt, t')
    | (Raise KeyboardInterrupt, t') => (Ok tt, t')
    | outcome => outcome
    end.

(** The module run as a script on a host where [platform.system()] is
    [platform_system]: the platform test comes first, outside any
    [try]. *)
Definition run_script (platform_system : string)
    (sim_device sim_os_version ios_application_output_path app_name
       minimum_os : string) : M unit :=
  if negb (String.eqb platform_system "Darwin")
  then raise (Exception "Cannot run iOS targets on a non-mac machine.")
  else main_block sim_device sim_os_version ios_application_output_path
         app_name minimum_os.

(** Seconds spent in [time.sleep] in a history. *)
Definition seconds_slept (t : list event) : Z :=
  foldr (fun e acc => match e with Sleep s => s + acc | Run _ _ => acc end)
        0 t.

(** * Properties *)

(** ** VersionKey *)

Example version_13_2_3 :
  minimum_os_to_simctl_runtime_version "13.2.3" = Ok 0x0D0203.
Proof. reflexivity. Qed.

Example version_pad :
  minimum_os_to_simctl_runtime_version "12" = Ok 0x0C0000.
Proof. reflexivity. Qed.

Example version_extra :
  minimum_os_to_simctl_runtime_version "1.2.3.x" = Ok 0x010203.
Proof. reflexivity. Qed.

Example version_bad :
  minimum_os_to_simctl_runtime_version "13.x" = Raise (ValueError "x").
Proof. reflexivity. Qed.

Example version_wide :
  minimum_os_to_simctl_runtime_version "0.256" = Ok 65536.
Proof. reflexivity. Qed.

Lemma first_three_components_length v :
  exists c1 c2 c3, first_three_components v = [c1; c2; c3].
Proof.
  unfold first_three_components.
  destruct (Py.split "." v) as [|c1 [|c2 [|c3 l]]]; simpl; eauto.
Qed.

Lemma version_key_unfold v c1 c2 c3 :
  first_three_components v = [c1; c2; c3] ->
  minimum_os_to_simctl_runtime_version v =
    result_bind (Py.int c1) (fun major =>
    result_bind (Py.int c2) (fun minor =>
    result_bind (Py.int c3) (fun micro =>
    Ok (pack major minor micro)))).
Proof.
  intros Hc. unfold minimum_os_to_simctl_runtime_version.
  fold (first_three_components v). rewrite Hc. simpl.
  destruct (Py.int c1) as [major|e]; simpl.
  2:{ destruct (Py.int c2), (Py.int c3); reflexivity. }
  destruct (Py.int c2) as [minor|e]; simpl.
  2:{ destruct (Py.int c3); reflexivity. }
  destruct (Py.int c3) as [micro|e]; simpl; [|reflexivity].
  f_equal. unfold pack.
  rewrite Z.shiftl_0_l, Z.lor_0_l.
  rewrite !Z.shiftl_lor, Z.shiftl_shiftl by lia. reflexivity.
Qed.

Lemma lor_shiftl_byte a b :
  0 <= b < 256 -> Z.lor (Z.shiftl a 8) b = a * 256 + b.
Proof.
  intros Hb.
  assert (Hland : Z.land (Z.shiftl a 8) b = 0).
  { apply Z.bits_inj'. intros n Hn.
    rewrite Z.land_spec, Z.bits_0.
    destruct (Z.lt_ge_cases n 8) as [Hlt|Hge].
    - rewrite Z.shiftl_spec_low by lia. reflexivity.
    - replace b with (b mod 2 ^ 8) by (apply Z.mod_small; lia).
      rewrite Z.mod_pow2_bits_high by lia. apply andb_false_r. }
  pose proof (Z.add_lor_land (Z.shiftl a 8) b) as Hadd.
  rewrite Hland in Hadd. rewrite Z.shiftl_mul_pow2 in * by lia. lia.
Qed.

Lemma pack_arith major minor micro :
  0 <= minor <= 255 -> 0 <= micro <= 255 ->
  pack major minor micro = major * 65536 + minor * 256 + micro.
Proof.
  intros Hmi Hmc. unfold pack.
  replace (Z.shiftl major 16) with (Z.shiftl (Z.shiftl major 8) 8)
    by (rewrite Z.shiftl_shiftl by lia; reflexivity).
  rewrite <- Z.shiftl_lor.
  rewrite (lor_shiftl_byte major minor) by lia.
  rewrite lor_shiftl_byte by lia. lia.
Qed.

Lemma spec_component_int s n :
  spec_component s = Some n -> Py.int s = Ok n /\ 0 <= n.
Proof.
  unfold spec_component. destruct (Py.int s) as [m|e]; [|discriminate].
  destruct (0 <=? m) eqn:Hm; [|discriminate].
  intros [= ->]. split; [reflexivity | lia].
Qed.

Lemma spec_version_tuple_key v x :
  spec_version_tuple v = Some x ->
  minimum_os_to_simctl_runtime_version v = Ok (key_of x) /\
  0 <= x.1.1 /\ 0 <= x.1.2 /\ 0 <= x.2.
Proof.
  unfold spec_version_tuple. intros Hv.
  destruct (Py.split "." v) as [|a [|b [|c [|d l]]]] eqn:Hs; try discriminate.
  - destruct (spec_component a) as [major|] eqn:Ha; [|discriminate].
    injection Hv as <-. apply spec_component_int in Ha as [Ha Hma].
    rewrite (version_key_unfold v a "0" "0")
      by (unfold first_three_components; rewrite Hs; reflexivity).
    rewrite Ha. simpl. repeat split; (reflexivity || lia).
  - destruct (spec_component a) as [major|] eqn:Ha; [|discriminate].
    destruct (spec_component b) as [minor|] eqn:Hb; [|discriminate].
    injection Hv as <-. apply spec_component_int in Ha as [Ha Hma].
    apply spec_component_int in Hb as [Hb Hmi].
    rewrite (version_key_unfold v a b "0")
      by (unfold first_three_components; rewrite Hs; reflexivity).
    rewrite Ha, Hb. simpl. repeat split; (reflexivity || lia).
  - destruct (spec_component a) as [major|] eqn:Ha; [|discriminate].
    destruct (spec_component b) as [minor|] eqn:Hb; [|discriminate].
    destruct (spec_component c) as [micro|] eqn:Hc; [|discriminate].
    injection Hv as <-. apply spec_component_int in Ha as [Ha Hma].
    apply spec_component_int in Hb as [Hb Hmi].
    apply spec_component_int in Hc as [Hc Hmc].
    rewrite (version_key_unfold v a b c)
      by (unfold first_three_components; rewrite Hs; reflexivity).
    rewrite Ha, Hb, Hc. simpl. repeat split; (reflexivity || lia).
Qed.

Lemma land_byte x : 0 <= x <= 255 -> Z.land x 255 = x.
Proof.
  intros Hx. change 255 with (Z.ones 8).
  rewrite Z.land_ones by lia. apply Z.mod_small. lia.
Qed.

Lemma discover_raises_version_error simctl_path v sim_device sim_os_version
    e h t simctl_data :
  minimum_os_to_simctl_runtime_version v = Raise e ->
  json_load h (stdout (run_process h t [simctl_path; "list"; "-j"]))
    = Some simctl_data ->
  returncode (run_process h t [simctl_path; "list"; "-j"]) = 0 ->
  discover_best_compatible_simulator simctl_path v sim_device sim_os_version
    h t = (Raise e, t ++ [Run [simctl_path; "list"; "-j"] None]).
Proof.
  intros Hv Hj Hr. unfold discover_best_compatible_simulator.
  rewrite Hj, Hr, Hv. reflexivity.
Qed.

(** C1, as the code has it. For version strings of up to three
    dot-separated non-negative integers (missing trailing components being
    0), the key is the packed triple; keys of equal triples are equal, so
    the key of "13.2" is the key of "13.2.0"; and when the minor and micro
    components of both versions are at most 255, one key is below the other
    exactly when the triples are in lexicographic order. *)
Theorem version_key_order a b ta tb :
  spec_version_tuple a = Some ta ->
  spec_version_tuple b = Some tb ->
  minimum_os_to_simctl_runtime_version a = Ok (key_of ta) /\
  minimum_os_to_simctl_runtime_version b = Ok (key_of tb) /\
  (ta = tb -> key_of ta = key_of tb) /\
  (fits_in_bytes ta -> fits_in_bytes tb ->
   (key_of ta < key_of tb <-> lex_lt ta tb)) /\
  minimum_os_to_simctl_runtime_version "13.2" =
    minimum_os_to_simctl_runtime_version "13.2.0".
Proof.
  intros Ha Hb.
  apply spec_version_tuple_key in Ha as (Ha & Ha1 & Ha2 & Ha3).
  apply spec_version_tuple_key in Hb as (Hb & Hb1 & Hb2 & Hb3).
  split; [exact Ha|]. split; [exact Hb|].
  split; [intros ->; reflexivity|].
  split; [|reflexivity].
  destruct ta as [[a1 a2] a3], tb as [[b1 b2] b3]. simpl in *.
  intros [Ha2' Ha3'] [Hb2' Hb3'].
  rewrite !pack_arith by lia. lia.
Qed.

Lemma version_key_order_witness :
  minimum_os_to_simctl_runtime_version "9.3" = Ok (key_of (9, 3, 0)) /\
  minimum_os_to_simctl_runtime_version "10.0.1" = Ok (key_of (10, 0, 1)) /\
  (key_of (9, 3, 0) < key_of (10, 0, 1) <-> lex_lt (9, 3, 0) (10, 0, 1)).
Proof.
  destruct (version_key_order "9.3" "10.0.1" (9, 3, 0) (10, 0, 1)
              eq_refl eq_refl) as (Ha & Hb & _ & Hord & _).
  split; [exact Ha|]. split; [exact Hb|].
  apply Hord; simpl; lia.
Defined.

(** C1 as it is worded fails on the code: nothing masks a component, so a
    minor component of 256 carries into the major byte. *)
Lemma version_key_order_counterexample :
  spec_version_tuple "0.256" = Some (0, 256, 0) /\
  spec_version_tuple "1.0" = Some (1, 0, 0) /\
  minimum_os_to_simctl_runtime_version "0.256" = Ok 65536 /\
  minimum_os_to_simctl_runtime_version "1.0" = Ok 65536 /\
  ~ (65536 < 65536 <-> lex_lt (0, 256, 0) (1, 0, 0)).
Proof.
  repeat split; try reflexivity.
  intros [_ H]. assert (65536 < 65536) by (apply H; simpl; lia). lia.
Qed.

(** C2, as the code has it. The loop runs over the first three components
    (padded with "0", later ones ignored), converts each with [int], in
    order, and packs the values unmasked: the result is
    (major << 16) | (minor << 8) | micro, a 24-bit value equal to the masked
    packing when every component is in [0,255]. A component that [int]
    rejects raises its [ValueError], and discovery and the persistent path
    hand it on to their caller. *)
Theorem version_encoding v :
  (exists c1 c2 c3,
     first_three_components v = [c1; c2; c3] /\
     minimum_os_to_simctl_runtime_version v =
       result_bind (Py.int c1) (fun major =>
       result_bind (Py.int c2) (fun minor =>
       result_bind (Py.int c3) (fun micro =>
       Ok (Z.lor (Z.lor (Z.shiftl major 16) (Z.shiftl minor 8)) micro))))) /\
  (forall major minor micro,
     0 <= major <= 255 -> 0 <= minor <= 255 -> 0 <= micro <= 255 ->
     pack major minor micro = spec_masked_pack major minor micro /\
     0 <= pack major minor micro < 2 ^ 24) /\
  (forall e simctl_path sim_device sim_os_version h t simctl_data,
     minimum_os_to_simctl_runtime_version v = Raise e ->
     json_load h (stdout (run_process h t [simctl_path; "list"; "-j"]))
       = Some simctl_data ->
     returncode (run_process h t [simctl_path; "list"; "-j"]) = 0 ->
     discover_best_compatible_simulator simctl_path v sim_device
       sim_os_version h t
       = (Raise e, t ++ [Run [simctl_path; "list"; "-j"] None]) /\
     persistent_ios_simulator simctl_path v sim_device sim_os_version h t
       = (Raise e, t ++ [Run [simctl_path; "list"; "-j"] None])).
Proof.
  split; [|split].
  - destruct (first_three_components_length v) as (c1 & c2 & c3 & Hc).
    exists c1, c2, c3. split; [exact Hc|].
    apply version_key_unfold, Hc.
  - intros major minor micro Hma Hmi Hmc. split.
    + unfold spec_masked_pack. rewrite !land_byte by lia. reflexivity.
    + rewrite pack_arith by lia. lia.
  - intros e simctl_path sim_device sim_os_version h t simctl_data Hv Hj Hr.
    pose proof (discover_raises_version_error simctl_path v sim_device
                  sim_os_version e h t simctl_data Hv Hj Hr) as Hd.
    split; [exact Hd|].
    unfold persistent_ios_simulator, bind. rewrite Hd. reflexivity.
Qed.

Lemma version_encoding_witness :
  pack 13 2 3 = spec_masked_pack 13 2 3 /\
  persistent_ios_simulator "simctl" "13.x" EmptyString EmptyString
    (Fixture.quiet_host EmptyString Fixture.empty_catalog) []
    = (Raise (ValueError "x"), [Run ["simctl"; "list"; "-j"] None]).
Proof.
  destruct (version_encoding "13.x") as (_ & Hpack & Hraise).
  split.
  - apply (Hpack 13 2 3); lia.
  - apply (Hraise (ValueError "x") "simctl" EmptyString EmptyString
             (Fixture.quiet_host EmptyString Fixture.empty_catalog) []
             Fixture.empty_catalog); reflexivity.
Defined.

(** C2 as it is worded fails on the code: with a component of 256 the
    result is not the masked packing (and does not fit in 24 bits for a
    major component of 256). *)
Lemma version_encoding_counterexample :
  first_three_components "0.256" = ["0"; "256"; "0"] /\
  Py.int "0" = Ok 0 /\ Py.int "256" = Ok 256 /\
  minimum_os_to_simctl_runtime_version "0.256" = Ok 65536 /\
  spec_masked_pack 0 256 0 = 0 /\
  minimum_os_to_simctl_runtime_version "0.256"
    <> Ok (spec_masked_pack 0 256 0) /\
  minimum_os_to_simctl_runtime_version "256.0.0" = Ok (2 ^ 24).
Proof. repeat split; try reflexivity. discriminate. Qed.

(** ** PreferenceRanking: instances *)

Lemma booted_not_shutdown d :
  Device.is_booted d = true -> Device.is_shutdown d = false.
Proof.
  unfold Device.is_booted, Device.is_shutdown.
  intros H. apply String.eqb_eq in H. rewrite H. reflexivity.
Qed.

Lemma shutdown_not_booted d :
  Device.is_shutdown d = true -> Device.is_booted d = false.
Proof.
  unfold Device.is_booted, Device.is_shutdown.
  intros H. apply String.eqb_eq in H. rewrite H. reflexivity.
Qed.

(** C7. A Shutdown instance is below a Booted one and a Booted one is never
    below a Shutdown one, whatever their device types; two instances in
    the same state compare as their device types do. *)
Theorem instance_ranking (a b : Device.t) :
  (Device.is_shutdown a = true -> Device.is_booted b = true ->
   Device.lt a b = true /\ Device.lt b a = false) /\
  (d_state (Device.device a) = d_state (Device.device b) ->
   Device.lt a b = DeviceType.lt (Device.device_type a) (Device.device_type b)).
Proof.
  split.
  - intros Ha Hb. unfold Device.lt.
    rewrite Ha, Hb, (booted_not_shutdown b Hb), (shutdown_not_booted a Ha).
    split; reflexivity.
  - intros Hst. unfold Device.lt, Device.is_shutdown, Device.is_booted.
    rewrite Hst.
    destruct (String.eqb_spec (d_state (Device.device b)) "Shutdown") as [E|E].
    + rewrite E. reflexivity.
    + simpl. rewrite andb_false_r. reflexivity.
Qed.

Lemma instance_ranking_witness :
  let phone :=
    Device.make Catalog.phone_shutdown (DeviceType.make Catalog.iphone_8 1) in
  let pad :=
    Device.make Catalog.pad_booted (DeviceType.make Catalog.ipad_air 0) in
  (Device.lt phone pad = true /\ Device.lt pad phone = false) /\
  Device.lt phone phone = false.
Proof.
  intros phone pad. split.
  - apply (instance_ranking phone pad); reflexivity.
  - rewrite (proj2 (instance_ranking phone phone) eq_refl). reflexivity.
Defined.

(** ** Facts about [sort] *)

Section SortFacts.
Context {A : Type} (lt : A -> A -> bool).

Lemma insort_perm x l : insort lt x l ≡ₚ x :: l.
Proof.
  induction l as [|y l IH]; simpl; [reflexivity|].
  destruct (lt x y); [reflexivity|].
  rewrite IH. apply Permutation_swap.
Qed.

Lemma sort_from_perm l acc :
  foldl (fun acc x => insort lt x acc) acc l ≡ₚ acc ++ l.
Proof.
  revert acc. induction l as [|x l IH]; intros acc; simpl.
  - rewrite app_nil_r. reflexivity.
  - rewrite IH, insort_perm. apply Permutation_middle.
Qed.

Lemma sort_perm l : sort lt l ≡ₚ l.
Proof. unfold sort. rewrite sort_from_perm. reflexivity. Qed.

Lemma elem_of_sort x l : x ∈ sort lt l <-> x ∈ l.
Proof. rewrite sort_perm. reflexivity. Qed.

(** On a set [D] of elements on which [lt] is asymmetric and
    transitive, inserting keeps a list ascending. *)
Context (D : A -> Prop).
Hypothesis lt_asym : forall x y, D x -> D y -> lt x y = true -> lt y x = false.
Hypothesis lt_trans :
  forall x y z, D x -> D y -> D z ->
                lt x y = true -> lt y z = true -> lt x z = true.

Lemma insort_sorted x l :
  D x -> Forall D l ->
  StronglySorted (not_after lt) l -> StronglySorted (not_after lt) (insort lt x l).
Proof.
  intros Dx. induction l as [|y l IH]; intros Dl Hs; simpl.
  - constructor; constructor.
  - apply Forall_cons in Dl as [Dy Dl].
    apply StronglySorted_inv in Hs as [Hs Hy].
    destruct (lt x y) eqn:Hxy.
    + constructor; [constructor; assumption|].
      constructor; [apply lt_asym; assumption|].
      rewrite Forall_forall in Hy, Dl |- *. intros w Hw.
      unfold not_after. destruct (lt w x) eqn:Hwx; [|reflexivity].
      rewrite <- (Hy w Hw). symmetry.
      apply (lt_trans w x y); auto.
    + constructor; [apply IH; assumption|].
      rewrite insort_perm. constructor; assumption.
Qed.

Lemma sort_from_sorted l acc :
  Forall D l -> Forall D acc -> StronglySorted (not_after lt) acc ->
  StronglySorted (not_after lt) (foldl (fun acc x => insort lt x acc) acc l).
Proof.
  revert acc. induction l as [|x l IH]; intros acc Dl Dacc Hs; simpl.
  - exact Hs.
  - apply Forall_cons in Dl as [Dx Dl]. apply IH; [assumption| |].
    + rewrite insort_perm. constructor; assumption.
    + apply insort_sorted; assumption.
Qed.

Lemma sort_sorted l : Forall D l -> StronglySorted (not_after lt) (sort lt l).
Proof.
  intros Dl. apply sort_from_sorted; [assumption|constructor|constructor].
Qed.

Lemma last_of_sorted l m :
  Forall D l -> StronglySorted (not_after lt) l -> last l = Some m ->
  forall x, x ∈ l -> lt m x = false.
Proof.
  induction l as [|y l IH]; intros Dl Hs Hl x Hx; [discriminate|].
  apply Forall_cons in Dl as [Dy Dl].
  apply StronglySorted_inv in Hs as [Hs Hy].
  destruct l as [|z l].
  - injection Hl as <-. apply list_elem_of_singleton in Hx as ->.
    destruct (lt y y) eqn:E; [|reflexivity].
    rewrite <- E. apply lt_asym; assumption.
  - rewrite last_cons_cons in Hl.
    apply elem_of_cons in Hx as [->|Hx]; [|apply IH; assumption].
    rewrite Forall_forall in Hy. apply Hy.
    apply last_Some_elem_of, Hl.
Qed.

(** The element [sort] puts last is below no element of the input. *)
Lemma last_sort_max l m :
  Forall D l -> last (sort lt l) = Some m ->
  m ∈ l /\ forall x, x ∈ l -> lt m x = false.
Proof.
  intros Dl Hl. split.
  - apply elem_of_sort, last_Some_elem_of, Hl.
  - intros x Hx.
    apply (last_of_sorted (sort lt l)); [|apply sort_sorted| |]; auto.
    + rewrite sort_perm. exact Dl.
    + apply elem_of_sort, Hx.
Qed.
End SortFacts.

Lemma elem_of_filterb {A} (f : A -> bool) (l : list A) x :
  x ∈ List.filter f l <-> x ∈ l /\ f x = true.
Proof. rewrite !list_elem_of_In. apply filter_In. Qed.

(** ** PreferenceRanking: device types *)

Lemma device_type_lt_key a b :
  one_family a -> one_family b ->
  DeviceType.lt a b = true <->
  (family_rank a < family_rank b \/
   family_rank a = family_rank b /\
   DeviceType.simctl_list_index a < DeviceType.simctl_list_index b)%nat.
Proof.
  unfold one_family, DeviceType.lt, family_rank.
  destruct (DeviceType.is_iphone a), (DeviceType.is_ipad a),
    (DeviceType.is_iphone b), (DeviceType.is_ipad b);
    simpl; intros Ha Hb; try discriminate;
    rewrite ?Nat.ltb_lt; split; intros; try lia; try discriminate.
Qed.

Lemma device_type_lt_asym a b :
  one_family a -> one_family b ->
  DeviceType.lt a b = true -> DeviceType.lt b a = false.
Proof.
  intros Ha Hb Hab. apply (device_type_lt_key a b Ha Hb) in Hab.
  destruct (DeviceType.lt b a) eqn:E; [|reflexivity].
  apply (device_type_lt_key b a Hb Ha) in E. lia.
Qed.

Lemma device_type_lt_trans a b c :
  one_family a -> one_family b -> one_family c ->
  DeviceType.lt a b = true -> DeviceType.lt b c = true ->
  DeviceType.lt a c = true.
Proof.
  intros Ha Hb Hc Hab Hbc.
  apply (device_type_lt_key a b Ha Hb) in Hab.
  apply (device_type_lt_key b c Hb Hc) in Hbc.
  apply (device_type_lt_key a c Ha Hc). lia.
Qed.

Lemma enumerate_device_types_index simctl_data a b :
  a ∈ enumerate_device_types simctl_data ->
  b ∈ enumerate_device_types simctl_data ->
  DeviceType.simctl_list_index a = DeviceType.simctl_list_index b -> a = b.
Proof.
  unfold enumerate_device_types. intros Ha Hb Hi.
  apply elem_of_lookup_imap_1 in Ha as (i & x & -> & Hx).
  apply elem_of_lookup_imap_1 in Hb as (j & y & -> & Hy).
  simpl in Hi. subst j. congruence.
Qed.

Lemma enumerate_device_types_lookup simctl_data i x :
  devicetypes simctl_data !! i = Some x ->
  DeviceType.make x i ∈ enumerate_device_types simctl_data.
Proof.
  intros H. unfold enumerate_device_types.
  apply (elem_of_lookup_imap_2
           (fun simctl_list_index device_type =>
              DeviceType.make device_type simctl_list_index) _ _ _ H).
Qed.

Lemma compatible_in_family minimum_runtime_version sim_device dt :
  device_type_is_compatible minimum_runtime_version sim_device dt = true ->
  DeviceType.is_iphone dt || DeviceType.is_ipad dt = true.
Proof.
  unfold device_type_is_compatible.
  destruct (DeviceType.is_iphone dt || DeviceType.is_ipad dt);
    [reflexivity | discriminate].
Qed.

(** C6, as the code has it. Comparing an iPad with an iPhone gives "below",
    whatever the catalog indices. For device types that are each in one
    family only, the iPhone is not below the iPad, so the iPad is strictly
    below, and two device types of the same family compare by catalog
    index, the lower one below. In a catalog where no device type is in
    both families, the device type selected is the last of the sorted
    compatible ones and every other compatible device type is below it;
    from iPad@0, iPhone@1, iPad@2 it is iPhone@1. *)
Theorem device_type_ranking :
  (forall a b,
     DeviceType.is_ipad a = true -> DeviceType.is_iphone b = true ->
     DeviceType.lt a b = true) /\
  (forall a b,
     one_family a -> one_family b ->
     DeviceType.is_ipad a = true -> DeviceType.is_iphone b = true ->
     DeviceType.lt b a = false) /\
  (forall a b,
     one_family a -> one_family b ->
     DeviceType.is_iphone a = DeviceType.is_iphone b ->
     DeviceType.lt a b =
       (DeviceType.simctl_list_index a <? DeviceType.simctl_list_index b)%nat) /\
  (forall simctl_data minimum_runtime_version sim_device sim_os_version,
     Forall not_both_families (enumerate_device_types simctl_data) ->
     let candidates :=
       List.filter
         (device_type_is_compatible minimum_runtime_version (folded sim_device))
         (enumerate_device_types simctl_data) in
     match (best_compatible simctl_data minimum_runtime_version sim_device
              sim_os_version).1 with
     | None => candidates = []
     | Some best =>
         best ∈ candidates /\
         forall x, x ∈ candidates -> x <> best -> DeviceType.lt x best = true
     end) /\
  (best_compatible Catalog.types_only 0x0B0000 EmptyString EmptyString).1
    = Some (DeviceType.make Catalog.iphone_8 1).
Proof.
  split; [|split; [|split; [|split]]].
  - intros a b Ha Hb. unfold DeviceType.lt. rewrite Ha, Hb. reflexivity.
  - intros a b Fa Fb Ha Hb. apply device_type_lt_asym; auto.
    unfold DeviceType.lt. rewrite Ha, Hb. reflexivity.
  - intros a b Fa Fb Hab. unfold one_family in Fa, Fb. unfold DeviceType.lt.
    rewrite <- Hab in *.
    destruct (DeviceType.is_iphone a), (DeviceType.is_ipad a),
      (DeviceType.is_ipad b); try discriminate; reflexivity.
  - intros simctl_data minimum_runtime_version sim_device sim_os_version Hfam
      candidates.
    unfold best_compatible. simpl.
    unfold compatible_device_types. fold candidates.
    assert (Hcand : Forall one_family candidates).
    { rewrite Forall_forall in Hfam |- *. intros x Hx.
      apply elem_of_filterb in Hx as [Hx Hc].
      apply compatible_in_family in Hc. specialize (Hfam x Hx).
      unfold one_family, not_both_families in *.
      destruct (DeviceType.is_iphone x), (DeviceType.is_ipad x);
        simpl in *; congruence. }
    destruct (last (sort DeviceType.lt candidates)) as [best|] eqn:Hlast.
    + destruct (last_sort_max DeviceType.lt one_family device_type_lt_asym
                  device_type_lt_trans candidates best Hcand Hlast)
        as [Hin Hmax].
      split; [exact Hin|]. intros x Hx Hne.
      rewrite Forall_forall in Hcand.
      pose proof (Hmax x Hx) as Hbx.
      destruct (DeviceType.lt x best) eqn:Hxb; [reflexivity|]. exfalso.
      assert (Kx := device_type_lt_key x best (Hcand x Hx) (Hcand best Hin)).
      assert (Kb := device_type_lt_key best x (Hcand best Hin) (Hcand x Hx)).
      apply Hne.
      apply (enumerate_device_types_index simctl_data);
        [apply elem_of_filterb in Hx as [Hx _]; exact Hx
        |apply elem_of_filterb in Hin as [Hin _]; exact Hin|].
      destruct (Nat.lt_total (DeviceType.simctl_list_index x)
                  (DeviceType.simctl_list_index best)) as [H|[H|H]];
        [|exact H|].
      * destruct (Nat.lt_total (family_rank x) (family_rank best))
          as [R|[R|R]].
        -- rewrite (proj2 Kx) in Hxb by lia. discriminate.
        -- rewrite (proj2 Kx) in Hxb by lia. discriminate.
        -- rewrite (proj2 Kb) in Hbx by lia. discriminate.
      * destruct (Nat.lt_total (family_rank x) (family_rank best))
          as [R|[R|R]].
        -- rewrite (proj2 Kx) in Hxb by lia. discriminate.
        -- rewrite (proj2 Kb) in Hbx by lia. discriminate.
        -- rewrite (proj2 Kb) in Hbx by lia. discriminate.
    + apply last_None in Hlast.
      apply Permutation_nil_r. rewrite <- Hlast. symmetry. apply sort_perm.
  - reflexivity.
Qed.

Lemma device_type_ranking_witness :
  let ipad := DeviceType.make Catalog.ipad_pro 2 in
  let iphone := DeviceType.make Catalog.iphone_8 1 in
  DeviceType.lt ipad iphone = true /\
  DeviceType.lt iphone ipad = false /\
  DeviceType.lt (DeviceType.make Catalog.ipad_air 0) ipad = true /\
  (iphone ∈ List.filter (device_type_is_compatible 0x0B0000 (folded EmptyString))
              (enumerate_device_types Catalog.types_only) /\
   forall x,
     x ∈ List.filter (device_type_is_compatible 0x0B0000 (folded EmptyString))
           (enumerate_device_types Catalog.types_only) ->
     x <> iphone -> DeviceType.lt x iphone = true).
Proof.
  intros ipad iphone.
  destruct device_type_ranking as (H1 & H2 & H3 & H4 & H5).
  split; [apply H1; reflexivity|].
  split; [apply H2; reflexivity|].
  split; [rewrite H3; reflexivity|].
  specialize (H4 Catalog.types_only 0x0B0000 EmptyString EmptyString
                ltac:(repeat constructor)).
  cbv zeta in H4. rewrite H5 in H4. exact H4.
Defined.

(** C6 as it is worded fails on the code: a device type without
    productFamily whose identifier mentions both names passes the filter
    as an iPhone and as an iPad; two such device types are below each
    other in both directions, whatever their catalog indices, and each is
    below itself. *)
Lemma device_type_ranking_counterexample :
  let a := DeviceType.make Catalog.hybrid_a 0 in
  let b := DeviceType.make Catalog.hybrid_b 1 in
  enumerate_device_types Catalog.hybrids = [a; b] /\
  compatible_device_types Catalog.hybrids 0x0D0000 EmptyString ≡ₚ [a; b] /\
  DeviceType.is_ipad a = true /\ DeviceType.is_iphone a = true /\
  DeviceType.is_ipad b = true /\ DeviceType.is_iphone b = true /\
  DeviceType.lt b a = true /\
  (DeviceType.simctl_list_index b <? DeviceType.simctl_list_index a)%nat
    = false /\
  DeviceType.lt a b = true /\
  DeviceType.lt a a = true.
Proof.
  intros a b.
  split; [reflexivity|].
  split; [unfold compatible_device_types; rewrite sort_perm; reflexivity|].
  repeat (split; [reflexivity|]). reflexivity.
Qed.

(** ** CompatibilityFilter: the maximum runtime version *)

(** C8, as the code has it. For a device type of the catalog that is an
    iPhone or an iPad and passes the name filter, the device-type pass
    keeps it exactly when its maxRuntimeVersion is absent, or is 0 (which
    the truth test of the guard treats as absent), or is at least the
    encoded minimum. A maximum encoding "12.0.0" is dropped for minimum OS
    "13.0" and kept for "11.0". *)
Theorem max_runtime_version_filter :
  (forall simctl_data minimum_runtime_version sim_device dt,
     dt ∈ enumerate_device_types simctl_data ->
     DeviceType.is_iphone dt || DeviceType.is_ipad dt = true ->
     Py.truthy sim_device &&
       (Py.find (Py.casefold (dt_name (DeviceType.device_type dt))) sim_device
          =? -1) = false ->
     (dt ∈ compatible_device_types simctl_data minimum_runtime_version
             sim_device
      <->
      match dt_maxRuntimeVersion (DeviceType.device_type dt) with
      | None => True
      | Some v => v = 0 \/ minimum_runtime_version <= v
      end)) /\
  minimum_os_to_simctl_runtime_version "12.0.0" = Ok 0x0C0000 /\
  minimum_os_to_simctl_runtime_version "13.0" = Ok 0x0D0000 /\
  minimum_os_to_simctl_runtime_version "11.0" = Ok 0x0B0000 /\
  dt_maxRuntimeVersion Catalog.ipad_air = Some 0x0C0000 /\
  (DeviceType.make Catalog.ipad_air 0
     ∉ compatible_device_types Catalog.types_only 0x0D0000 EmptyString) /\
  (DeviceType.make Catalog.ipad_air 0
     ∈ compatible_device_types Catalog.types_only 0x0B0000 EmptyString).
Proof.
  split.
  - intros simctl_data minimum_runtime_version sim_device dt Hin Hfam Hname.
    unfold compatible_device_types.
    rewrite elem_of_sort, elem_of_filterb.
    unfold device_type_is_compatible. rewrite Hfam, Hname. simpl.
    destruct (dt_maxRuntimeVersion (DeviceType.device_type dt)) as [v|].
    + destruct (Z.eqb_spec v 0) as [->|Hv]; simpl.
      * split; [intros _; left; reflexivity | intros _; auto].
      * destruct (Z.ltb_spec v minimum_runtime_version) as [Hlt|Hge].
        -- split; [intros [_ H]; discriminate | intros [H|H]; lia].
        -- split; [intros _; right; exact Hge | intros _; auto].
    + split; auto.
  - repeat split; try reflexivity.
    + intros H. apply elem_of_sort, elem_of_filterb in H as [_ H].
      discriminate.
    + apply elem_of_sort, elem_of_filterb. split; [|reflexivity].
      apply enumerate_device_types_lookup. reflexivity.
Qed.

Lemma max_runtime_version_filter_witness :
  DeviceType.make Catalog.iphone_8 1
    ∈ compatible_device_types Catalog.types_only 0x0D0000 EmptyString /\
  DeviceType.make Catalog.ipad_pro 2
    ∈ compatible_device_types Catalog.types_only 0x0D0000 "ipad".
Proof.
  destruct max_runtime_version_filter as [H _]. split.
  - apply (H Catalog.types_only 0x0D0000 EmptyString (DeviceType.make Catalog.iphone_8 1));
      [|reflexivity|reflexivity|exact I].
    apply enumerate_device_types_lookup. reflexivity.
  - apply (H Catalog.types_only 0x0D0000 "ipad"
             (DeviceType.make Catalog.ipad_pro 2));
      [|reflexivity|reflexivity|right; vm_compute; discriminate].
    apply enumerate_device_types_lookup. reflexivity.
Defined.

(** C8 as it is worded fails on the code: a maxRuntimeVersion of 0 is
    present and below the encoded minimum of "1.0", and the device type is
    kept. *)
Lemma max_runtime_version_filter_counterexample :
  minimum_os_to_simctl_runtime_version "1.0" = Ok 65536 /\
  dt_maxRuntimeVersion Catalog.iphone_zero = Some 0 /\
  ~ (65536 <= 0) /\
  compatible_device_types Catalog.zero_only 65536 EmptyString
    = [DeviceType.make Catalog.iphone_zero 0].
Proof. repeat split; try reflexivity. lia. Qed.

(** ** The environment of the launched application *)

Lemma append_cons c s r : String c s +:+ r = String c (s +:+ r).
Proof. reflexivity. Qed.

Lemma append_nil r : EmptyString +:+ r = r.
Proof. reflexivity. Qed.

Lemma startswith_app s p :
  Py.startswith s p = true <-> exists r, s = p +:+ r.
Proof.
  unfold Py.startswith. revert s.
  induction p as [|c p IH]; intros s.
  - split; [intros _; exists s; reflexivity | intros _; destruct s; reflexivity].
  - destruct s as [|d s];
      [split; [discriminate | intros [r Hr]; discriminate]|].
    change (String.prefix (String c p) (String d s))
      with (if ascii_dec c d then String.prefix p s else false).
    destruct (ascii_dec c d) as [->|Hne].
    + rewrite IH.
      split; intros [r Hr]; exists r; rewrite append_cons in *; congruence.
    + split; [discriminate|].
      intros [r Hr]. rewrite append_cons in Hr. congruence.
Qed.

Lemma drop_app p r : Py.drop (String.length p) (p +:+ r) = r.
Proof.
  induction p as [|c p IH].
  - rewrite append_nil. destruct r; reflexivity.
  - rewrite append_cons. exact IH.
Qed.

Lemma replace1_prefix p r new : Py.replace1 (p +:+ r) p new = new +:+ r.
Proof.
  assert (H : Py.startswith (p +:+ r) p = true)
    by (apply startswith_app; eauto).
  assert (U : forall s,
             Py.replace1 s p new =
               if Py.startswith s p then new +:+ Py.drop (String.length p) s
               else match s with
                    | EmptyString => EmptyString
                    | String c s' => String c (Py.replace1 s' p new)
                    end)
    by (intros []; reflexivity).
  rewrite U, H, drop_app. reflexivity.
Qed.

Lemma append_inj_l p r1 r2 : p +:+ r1 = p +:+ r2 -> r1 = r2.
Proof.
  induction p as [|c p IH]; [auto|].
  rewrite !append_cons. intros [= H]. auto.
Qed.

Lemma launch_environ_loop (environ : gmap string string) (k' : string) :
  map_fold launch_environ_step ∅ environ !! k' =
    if Py.startswith k' "SIMCTL_CHILD_"
    then environ !! ("IOS_" +:+ Py.drop 13 k')
    else None.
Proof.
  apply (map_fold_weak_ind
           (fun (result environ : gmap string string) =>
              result !! k' =
                if Py.startswith k' "SIMCTL_CHILD_"
                then environ !! ("IOS_" +:+ Py.drop 13 k')
                else None)); clear environ.
  - rewrite !lookup_empty. destruct (Py.startswith _ _); reflexivity.
  - intros k v environ result Hfresh IH. unfold launch_environ_step.
    destruct (Py.startswith k "IOS_") eqn:Hk; cbn [negb].
    + apply startswith_app in Hk as [rk ->].
      rewrite (replace1_prefix "IOS_" rk "SIMCTL_CHILD_").
      destruct (decide ("SIMCTL_CHILD_" +:+ rk = k')) as [<-|Hne].
      * rewrite lookup_insert_eq.
        rewrite (proj2 (startswith_app _ _)) by eauto.
        change 13%nat with (String.length "SIMCTL_CHILD_").
        rewrite drop_app, lookup_insert_eq. reflexivity.
      * rewrite lookup_insert_ne by exact Hne. rewrite IH.
        destruct (Py.startswith k' "SIMCTL_CHILD_") eqn:Hk'; [|reflexivity].
        apply startswith_app in Hk' as [r' ->].
        change 13%nat with (String.length "SIMCTL_CHILD_").
        rewrite drop_app, lookup_insert_ne; [reflexivity|].
        intros H. apply append_inj_l in H. congruence.
    + rewrite IH.
      destruct (Py.startswith k' "SIMCTL_CHILD_"); [|reflexivity].
      rewrite lookup_insert_ne; [reflexivity|].
      intros ->. rewrite (proj2 (startswith_app _ _)) in Hk by eauto.
      discriminate.
Qed.

Lemma simctl_launch_environ_lookup (environ : gmap string string) k' :
  simctl_launch_environ_of environ !! k' =
    if decide (k' = "SIMCTL_CHILD_OS_ACTIVITY_DT_MODE" /\
               "IDE_DISABLED_OS_ACTIVITY_DT_MODE" ∉ dom environ)
    then Some "enable"
    else if Py.startswith k' "SIMCTL_CHILD_"
         then environ !! ("IOS_" +:+ Py.drop 13 k')
         else None.
Proof.
  unfold simctl_launch_environ_of.
  destruct (decide ("IDE_DISABLED_OS_ACTIVITY_DT_MODE" ∈ dom environ))
    as [Hin|Hnot].
  - rewrite decide_False by (intros [_ H]; exact (H Hin)).
    apply launch_environ_loop.
  - destruct (decide (k' = "SIMCTL_CHILD_OS_ACTIVITY_DT_MODE")) as [->|Hne].
    + rewrite decide_True by (split; [reflexivity|exact Hnot]).
      apply lookup_insert_eq.
    + rewrite decide_False by (intros [H _]; exact (Hne H)).
      rewrite lookup_insert_ne by congruence.
      apply launch_environ_loop.
Qed.

(** C9, as the code has it. The dictionary passed to the launch command
    holds every host variable whose name starts with "IOS_", under the name
    with that prefix replaced by "SIMCTL_CHILD_" and with the same value,
    and, unless the host sets IDE_DISABLED_OS_ACTIVITY_DT_MODE, the entry
    SIMCTL_CHILD_OS_ACTIVITY_DT_MODE = "enable" (which then replaces a
    translated IOS_OS_ACTIVITY_DT_MODE); nothing else. *)
Theorem launch_environment :
  (forall (environ : gmap string string) k',
     simctl_launch_environ_of environ !! k' =
       if decide (k' = "SIMCTL_CHILD_OS_ACTIVITY_DT_MODE" /\
                  "IDE_DISABLED_OS_ACTIVITY_DT_MODE" ∉ dom environ)
       then Some "enable"
       else if Py.startswith k' "SIMCTL_CHILD_"
            then environ !! ("IOS_" +:+ Py.drop 13 k')
            else None) /\
  (forall simulator_udid developer_path simctl_path
          ios_application_output_path app_name h t t1 app_path app_bundle_id,
     boot_simulator developer_path simctl_path simulator_udid h t
       = (Ok tt, t1) ->
     extract_app h ios_application_output_path app_name = Ok app_path ->
     returncode
       (run_process h t1 [simctl_path; "install"; simulator_udid; app_path])
       = 0 ->
     read_bundle_id h app_path = Ok app_bundle_id ->
     run_app_in_simulator simulator_udid developer_path simctl_path
       ios_application_output_path app_name h t
     = (Ok tt,
        t1 ++ [Run [simctl_path; "install"; simulator_udid; app_path] None;
               Run [simctl_path; "launch"; "--console-pty"; simulator_udid;
                    app_bundle_id]
                   (Some (simctl_launch_environ_of (os_environ h)))])).
Proof.
  split; [exact simctl_launch_environ_lookup|].
  intros simulator_udid developer_path simctl_path ios_application_output_path
    app_name h t t1 app_path app_bundle_id Hboot Hextract Hinstall Hbundle.
  unfold run_app_in_simulator, bind at 1. rewrite Hboot.
  unfold with_, extracted_app, bundle_id, simctl_launch_environ, bind, ask,
    lift, yield, ret, subprocess_run.
  rewrite Hextract. simpl. rewrite Hinstall, Hbundle. simpl.
  rewrite <- app_assoc. reflexivity.
Qed.

Lemma launch_environment_witness :
  let h :=
    Fixture.with_environ {[ "IOS_GREETING" := "hello" ]}
      (Fixture.quiet_host "TestDevice (AAAA-1111) (Booted)"
         Fixture.empty_catalog) in
  run_app_in_simulator "AAAA-1111" "/Xcode" "/Xcode/usr/bin/simctl"
    "bazel-bin/App" "App" h []
  = (Ok tt,
     [Run ["open"; "-a"; "/Xcode/Applications/Simulator.app"; "--args";
           "-CurrentDeviceUDID"; "AAAA-1111"] None;
      Run ["/Xcode/usr/bin/simctl"; "list"; "devices"] None;
      Run ["/Xcode/usr/bin/simctl"; "install"; "AAAA-1111";
           "bazel-bin/App/App.app"] None;
      Run ["/Xcode/usr/bin/simctl"; "launch"; "--console-pty"; "AAAA-1111";
           "com.example.app"]
          (Some (simctl_launch_environ_of {[ "IOS_GREETING" := "hello" ]}))]).
Proof.
  intros h.
  apply (proj2 launch_environment "AAAA-1111" "/Xcode" "/Xcode/usr/bin/simctl"
           "bazel-bin/App" "App" h []
           [Run ["open"; "-a"; "/Xcode/Applications/Simulator.app"; "--args";
                 "-CurrentDeviceUDID"; "AAAA-1111"] None;
            Run ["/Xcode/usr/bin/simctl"; "list"; "devices"] None]
           "bazel-bin/App/App.app" "com.example.app"); reflexivity.
Defined.

(** C9 as it is worded fails on the code: with no host variable at all the
    dictionary is not empty, and a translated IOS_OS_ACTIVITY_DT_MODE does
    not keep its value. *)
Lemma launch_environment_counterexample :
  simctl_launch_environ_of ∅ !! "SIMCTL_CHILD_OS_ACTIVITY_DT_MODE"
    = Some "enable" /\
  simctl_launch_environ_of {[ "IOS_OS_ACTIVITY_DT_MODE" := "disable" ]}
    !! "SIMCTL_CHILD_OS_ACTIVITY_DT_MODE" = Some "enable".
Proof.
  split; rewrite simctl_launch_environ_lookup; apply decide_True;
    (split; [reflexivity|]); rewrite not_elem_of_dom.
  - apply lookup_empty.
  - apply lookup_singleton_ne. discriminate.
Qed.

(** ** Substrings and lines *)

Lemma split_nonempty sep s : Py.split sep s <> [].
Proof.
  destruct s as [|c s]; simpl; [discriminate|].
  destruct (Ascii.eqb c sep); [discriminate|].
  destruct (Py.split sep s); discriminate.
Qed.

Lemma split_app sep a w :
  Py.split sep (a +:+ String sep w) = Py.split sep a ++ Py.split sep w.
Proof.
  induction a as [|c a IH].
  - rewrite append_nil. simpl. rewrite Ascii.eqb_refl. reflexivity.
  - rewrite append_cons. simpl. destruct (Ascii.eqb c sep).
    + rewrite IH. reflexivity.
    + rewrite IH. pose proof (split_nonempty sep a) as Hne.
      destruct (Py.split sep a) as [|x l]; [congruence|reflexivity].
Qed.

Lemma append_assoc a b c : (a +:+ b) +:+ c = a +:+ (b +:+ c).
Proof.
  induction a as [|x a IH]; [reflexivity|].
  rewrite !append_cons, IH. reflexivity.
Qed.

Lemma append_nil_r a : a +:+ EmptyString = a.
Proof.
  induction a as [|x a IH]; [reflexivity|].
  rewrite append_cons, IH. reflexivity.
Qed.

Lemma occurs_in_cons sub c s :
  occurs_in sub (String c s) <->
  Py.startswith (String c s) sub = true \/ occurs_in sub s.
Proof.
  split.
  - intros ([|x pre] & post & H).
    + left. apply startswith_app. exists post. exact H.
    + right. rewrite append_cons in H. injection H as _ H.
      exists pre, post. exact H.
  - intros [H|(pre & post & H)].
    + apply startswith_app in H as [r H].
      exists EmptyString, r. exact H.
    + exists (String c pre), post. rewrite append_cons, H. reflexivity.
Qed.

Lemma occurs_in_empty sub :
  occurs_in sub EmptyString <-> Py.startswith EmptyString sub = true.
Proof.
  split.
  - intros ([|x pre] & post & H); [|rewrite append_cons in H; discriminate].
    apply startswith_app. exists post. exact H.
  - intros H. apply startswith_app in H as [r H].
    exists EmptyString, r. exact H.
Qed.

Lemma find_from_unfold i s sub :
  Py.find_from i s sub =
    if Py.startswith s sub then i
    else match s with
         | EmptyString => -1
         | String _ r => Py.find_from (i + 1) r sub
         end.
Proof. destruct s; reflexivity. Qed.

Lemma find_from_spec s sub : forall i,
  0 <= i ->
  (Py.find_from i s sub = -1 /\ ~ occurs_in sub s) \/
  (i <= Py.find_from i s sub /\ occurs_in sub s).
Proof.
  induction s as [|c s IH]; intros i Hi; rewrite find_from_unfold.
  - destruct (Py.startswith EmptyString sub) eqn:E.
    + right. split; [lia|]. apply occurs_in_empty, E.
    + left. split; [reflexivity|].
      intros H. apply occurs_in_empty in H. congruence.
  - destruct (Py.startswith (String c s) sub) eqn:E.
    + right. split; [lia|]. apply occurs_in_cons. left. exact E.
    + destruct (IH (i + 1)) as [[Hf Hn]|[Hf Ho]]; [lia| |].
      * left. split; [exact Hf|].
        intros H. apply occurs_in_cons in H as [H|H]; [congruence|auto].
      * right. split; [lia|]. apply occurs_in_cons. right. exact Ho.
Qed.

(** [s.find(sub) != -1] says that [sub] occurs in [s]. *)
Lemma find_occurs s sub :
  negb (Py.find s sub =? -1) = true <-> occurs_in sub s.
Proof.
  unfold Py.find.
  destruct (find_from_spec s sub 0) as [[Hf Hn]|[Hf Ho]]; [lia| |].
  - rewrite Hf. simpl. split; [discriminate|contradiction].
  - destruct (Z.eqb_spec (Py.find_from 0 s sub) (-1)); [lia|].
    simpl. split; auto.
Qed.

(** The pieces of [s.split(sep)]: the first one starts the string, every
    later one follows a separator; each is free of the separator and ends
    the string or is followed by a separator. *)
Lemma split_pieces sep s :
  exists h t,
    Py.split sep s = h :: t /\
    (~ occurs_in (String sep EmptyString) h /\
     exists after,
       s = h +:+ after /\
       (after = EmptyString \/ exists a, after = String sep a)) /\
    Forall (fun line =>
              ~ occurs_in (String sep EmptyString) line /\
              exists b after,
                s = (b +:+ String sep EmptyString) +:+ line +:+ after /\
                (after = EmptyString \/ exists a, after = String sep a)) t.
Proof.
  induction s as [|c s IH].
  - exists EmptyString, []. split; [reflexivity|]. split; [|constructor].
    split.
    + intros ([|x pre] & post & H); discriminate.
    + exists EmptyString. split; [reflexivity|left; reflexivity].
  - destruct IH as (h & t & Hs & [Hh (after & Hafter & Hend)] & Ht).
    simpl. rewrite Hs.
    destruct (Ascii.eqb_spec c sep) as [->|Hne].
    + exists EmptyString, (h :: t). split; [reflexivity|]. split.
      * split; [intros ([|x pre] & post & H); discriminate|].
        exists (String sep s). split; [reflexivity|right; eauto].
      * constructor.
        -- split; [exact Hh|].
           exists EmptyString, after. split; [|exact Hend].
           rewrite append_nil, append_cons, append_nil, Hafter. reflexivity.
        -- eapply Forall_impl; [exact Ht|].
           intros line [Hl (b & after' & Hb & Hend')]. split; [exact Hl|].
           exists (String sep b), after'. split; [|exact Hend'].
           rewrite !append_cons, <- Hb. reflexivity.
    + exists (String c h), t. split; [reflexivity|]. split.
      * split.
        -- intros H. apply occurs_in_cons in H as [H|H]; [|auto].
           apply startswith_app in H as [r H]. rewrite append_cons in H.
           congruence.
        -- exists after. split; [rewrite append_cons, Hafter; reflexivity|].
           exact Hend.
      * eapply Forall_impl; [exact Ht|].
        intros line [Hl (b & after' & Hb & Hend')]. split; [exact Hl|].
        exists (String c b), after'. split; [|exact Hend'].
        rewrite !append_cons, <- Hb. reflexivity.
Qed.

Lemma split_no_sep sep line :
  ~ occurs_in (String sep EmptyString) line -> Py.split sep line = [line].
Proof.
  induction line as [|c line IH]; intros Hn; [reflexivity|].
  simpl. destruct (Ascii.eqb_spec c sep) as [->|Hne].
  - exfalso. apply Hn. exists EmptyString, line. reflexivity.
  - rewrite IH; [reflexivity|].
    intros H. apply Hn. apply occurs_in_cons. right. exact H.
Qed.

Lemma split_line_first sep line after :
  ~ occurs_in (String sep EmptyString) line ->
  after = EmptyString \/ (exists a, after = String sep a) ->
  line ∈ Py.split sep (line +:+ after).
Proof.
  intros Hn [->|[a ->]].
  - rewrite append_nil_r, split_no_sep by exact Hn. apply list_elem_of_here.
  - rewrite split_app, split_no_sep by exact Hn. apply list_elem_of_here.
Qed.

(** The elements of [listing.split("\n")] are the lines of [listing]. *)
Lemma elem_of_split_lines line listing :
  line ∈ Py.split "010" listing <-> line_of line listing.
Proof.
  unfold line_of, newline. split.
  - intros Hin.
    destruct (split_pieces "010" listing)
      as (h & t & Hs & [Hh (after & Hafter & Hend)] & Ht).
    rewrite Hs in Hin. apply elem_of_cons in Hin as [->|Hin].
    + split; [exact Hh|].
      exists EmptyString, after. split; [exact Hafter|].
      split; [left; reflexivity|exact Hend].
    + rewrite Forall_forall in Ht.
      destruct (Ht line Hin) as [Hl (b & after' & Hb & Hend')].
      split; [exact Hl|].
      exists (b +:+ String "010" EmptyString), after'.
      split; [exact Hb|]. split; [right; eauto|exact Hend'].
  - intros [Hn (before & after & -> & [->|[b ->]] & Hend)].
    + rewrite append_nil. apply split_line_first; assumption.
    + rewrite append_assoc.
      change (String "010" EmptyString +:+ line +:+ after)
        with (String "010" (line +:+ after)).
      rewrite split_app, elem_of_app. right.
      apply split_line_first; assumption.
Qed.

(** The test of the wait on a listing: some line of it holds both the
    udid and "Booted". *)
Lemma listing_reports_booted_spec udid listing :
  listing_reports_booted udid listing = true <-> shows_booted udid listing.
Proof.
  unfold listing_reports_booted, shows_booted. rewrite existsb_exists. split.
  - intros (line & Hin & Hline). exists line.
    apply list_elem_of_In, elem_of_split_lines in Hin.
    unfold line_reports_booted in Hline.
    apply andb_true_iff in Hline as [Hu Hb].
    apply find_occurs in Hu. apply find_occurs in Hb. auto.
  - intros (line & Hin & Hu & Hb). exists line.
    split; [apply list_elem_of_In, elem_of_split_lines, Hin|].
    unfold line_reports_booted. apply andb_true_iff.
    split; apply find_occurs; assumption.
Qed.

(** ** Boot Wait *)

Lemma polling_S simctl_path k :
  polling simctl_path (S k) =
    [Run (list_devices simctl_path) None; Sleep 1] ++ polling simctl_path k.
Proof. reflexivity. Qed.

Lemma polls_in_app simctl_path t1 t2 :
  polls_in simctl_path (t1 ++ t2) =
    (polls_in simctl_path t1 + polls_in simctl_path t2)%nat.
Proof. unfold polls_in. rewrite List.filter_app, length_app. reflexivity. Qed.

Lemma polls_in_poll simctl_path :
  polls_in simctl_path [Run (list_devices simctl_path) None] = 1%nat.
Proof.
  unfold polls_in. simpl. rewrite bool_decide_eq_true_2 by reflexivity.
  reflexivity.
Qed.

Lemma polls_in_polling simctl_path k :
  polls_in simctl_path (polling simctl_path k) = k.
Proof.
  induction k as [|k IH]; [reflexivity|].
  rewrite polling_S.
  change [Run (list_devices simctl_path) None; Sleep 1]
    with ([Run (list_devices simctl_path) None] ++ [Sleep 1]).
  rewrite <- app_assoc, polls_in_app, polls_in_poll, polls_in_app, IH.
  reflexivity.
Qed.

(** Whatever the host answers, [n] iterations poll at most [n] times. *)
Lemma wait_loop_bound n simctl_path udid h t :
  exists new,
    (wait_for_sim_to_boot_loop n simctl_path udid h t).2 = t ++ new /\
    (polls_in simctl_path new <= n)%nat.
Proof.
  revert t. induction n as [|n IH]; intros t.
  - exists []. rewrite app_nil_r. split; [reflexivity | unfold polls_in; simpl; lia].
  - simpl. unfold bind at 1, subprocess_run.
    fold (list_devices simctl_path).
    set (c := run_process h t (list_devices simctl_path)).
    destruct (true && negb (returncode c =? 0)).
    + exists [Run (list_devices simctl_path) None].
      rewrite polls_in_poll. split; [reflexivity | lia].
    + destruct (listing_reports_booted udid (stdout c)).
      * exists [Run (list_devices simctl_path) None].
        rewrite polls_in_poll. split; [reflexivity | lia].
      * unfold bind, sleep.
        destruct (IH ((t ++ [Run (list_devices simctl_path) None])
                        ++ [Sleep 1])) as (new & Hnew & Hle).
        exists ([Run (list_devices simctl_path) None] ++ [Sleep 1] ++ new).
        split.
        -- rewrite Hnew, <- !app_assoc. reflexivity.
        -- rewrite polls_in_app, polls_in_poll, polls_in_app.
           change (polls_in simctl_path [Sleep 1]) with 0%nat. lia.
Qed.

(** [k] polls without a booted line, then either a poll with one (when
    [k < n]) or the end of the loop (when [k = n]). *)
Lemma wait_loop_run n simctl_path udid h : forall k t,
  (k <= n)%nat ->
  (forall i, (i < k)%nat ->
     returncode (poll_outcome h t simctl_path i) = 0 /\
     listing_reports_booted udid (stdout (poll_outcome h t simctl_path i))
       = false) ->
  ((k < n)%nat ->
     returncode (poll_outcome h t simctl_path k) = 0 /\
     listing_reports_booted udid (stdout (poll_outcome h t simctl_path k))
       = true) ->
  wait_for_sim_to_boot_loop n simctl_path udid h t =
    (Ok (k <? n)%nat,
     t ++ polling simctl_path k ++
       (if (k <? n)%nat then [Run (list_devices simctl_path) None] else [])).
Proof.
  induction n as [|n IH]; intros k t Hk Hbefore Hat.
  - assert (k = 0%nat) as -> by lia. simpl. unfold ret.
    rewrite app_nil_r. reflexivity.
  - simpl. unfold bind at 1, subprocess_run.
    fold (list_devices simctl_path).
    assert (H0 : run_process h t (list_devices simctl_path)
                 = poll_outcome h t simctl_path 0)
      by (unfold poll_outcome; simpl; rewrite app_nil_r; reflexivity).
    rewrite H0.
    destruct k as [|k].
    + destruct Hat as [Hrc Hb]; [lia|]. cbv zeta. rewrite Hrc. cbn [andb negb Z.eqb]. rewrite Hb. reflexivity.
    + destruct (Hbefore 0%nat) as [Hrc Hb]; [lia|]. cbv zeta. rewrite Hrc. cbn [andb negb Z.eqb]. rewrite Hb.
      unfold bind, sleep.
      rewrite (IH k ((t ++ [Run (list_devices simctl_path) None])
                       ++ [Sleep 1])).
      * rewrite polling_S, <- !app_assoc. reflexivity.
      * lia.
      * intros i Hi. specialize (Hbefore (S i)).
        unfold poll_outcome in *. rewrite polling_S in Hbefore.
        rewrite <- !app_assoc. apply Hbefore. lia.
      * intros Hlt. unfold poll_outcome in *. rewrite polling_S in Hat.
        rewrite <- !app_assoc. apply Hat. lia.
Qed.

(** C4. After the simulator application was opened for the udid, the wait
    polls the device listing, sleeping one second after each poll whose
    listing has no line that holds both the udid and "Booted". It never
    polls more than 60 times. If the listings of the first [k] polls have
    no such line and the next one has ([k < 60]), the wait succeeds right
    after that poll, the [k+1]-th; if the listings of 60 polls have none
    ([k = 60]), the wait has polled exactly 60 times and [boot_simulator]
    raises. *)
Theorem boot_wait_bound :
  (forall simctl_path udid h t,
     exists new,
       (wait_for_sim_to_boot simctl_path udid h t).2 = t ++ new /\
       (polls_in simctl_path new <= 60)%nat) /\
  (forall developer_path simctl_path udid h t (k : nat),
     let opened := t ++ [Run (open_simulator developer_path udid) None] in
     let polled :=
       polling simctl_path k ++
         (if (k <? 60)%nat then [Run (list_devices simctl_path) None]
          else []) in
     returncode (run_process h t (open_simulator developer_path udid)) = 0 ->
     (k <= 60)%nat ->
     (forall i, (i < k)%nat ->
        returncode (poll_outcome h opened simctl_path i) = 0 /\
        ~ shows_booted udid (stdout (poll_outcome h opened simctl_path i))) ->
     ((k < 60)%nat ->
        returncode (poll_outcome h opened simctl_path k) = 0 /\
        shows_booted udid (stdout (poll_outcome h opened simctl_path k))) ->
     wait_for_sim_to_boot simctl_path udid h opened
       = (Ok (k <? 60)%nat, opened ++ polled) /\
     polls_in simctl_path polled = (if (k <? 60)%nat then S k else 60%nat) /\
     boot_simulator developer_path simctl_path udid h t
       = (if (k <? 60)%nat then Ok tt
          else Raise (Exception
                        ("Failed to launch simulator with UDID: " +:+ udid)),
          opened ++ polled)).
Proof.
  split.
  - intros. apply wait_loop_bound.
  - intros developer_path simctl_path udid h t k opened polled
      Hopen Hk Hbefore Hat.
    assert (Hwait : wait_for_sim_to_boot simctl_path udid h opened
                    = (Ok (k <? 60)%nat, opened ++ polled)).
    { apply wait_loop_run; [exact Hk| |].
      - intros i Hi. destruct (Hbefore i Hi) as [Hrc Hno].
        split; [exact Hrc|]. apply not_true_is_false. intros Hyes.
        apply Hno, listing_reports_booted_spec, Hyes.
      - intros Hlt. destruct (Hat Hlt) as [Hrc Hyes].
        split; [exact Hrc|]. apply listing_reports_booted_spec, Hyes. }
    split; [exact Hwait|]. split.
    + unfold polled. rewrite polls_in_app, polls_in_polling.
      destruct (Nat.ltb_spec k 60); [rewrite polls_in_poll; lia|].
      change (polls_in simctl_path []) with 0%nat. lia.
    + unfold boot_simulator, bind at 1, subprocess_run.
      fold (open_simulator developer_path udid). rewrite Hopen. simpl.
      fold opened. unfold bind. rewrite Hwait.
      destruct (k <? 60)%nat; reflexivity.
Qed.

Lemma boot_wait_bound_witness :
  let opened := [Run (open_simulator "/Xcode" "AAAA-1111") None] in
  boot_simulator "/Xcode" "simctl" "AAAA-1111" Scenario.never_booted []
    = (Raise (Exception "Failed to launch simulator with UDID: AAAA-1111"),
       opened ++ polling "simctl" 60) /\
  polls_in "simctl" (polling "simctl" 60) = 60%nat /\
  boot_simulator "/Xcode" "simctl" "AAAA-1111" Scenario.boots_later []
    = (Ok tt,
       opened ++ polling "simctl" 2 ++ [Run (list_devices "simctl") None]).
Proof.
  intros opened.
  destruct (proj2 boot_wait_bound "/Xcode" "simctl" "AAAA-1111"
              Scenario.never_booted [] 60%nat) as (_ & Hcount & Hboot).
  { reflexivity. }
  { lia. }
  { intros i _. split; [reflexivity|].
    intros H. apply listing_reports_booted_spec in H.
    vm_compute in H. discriminate. }
  { intros H. exfalso. lia. }
  destruct (proj2 boot_wait_bound "/Xcode" "simctl" "AAAA-1111"
              Scenario.boots_later [] 2%nat) as (_ & _ & Hlater).
  { reflexivity. }
  { lia. }
  { intros i Hi.
    destruct i as [|[|i]]; [| |lia];
      (split; [reflexivity|];
       intros H; apply listing_reports_booted_spec in H;
       vm_compute in H; discriminate). }
  { intros _. split; [reflexivity|].
    apply listing_reports_booted_spec. reflexivity. }
  split; [|split].
  - rewrite Hboot. rewrite app_nil_r. reflexivity.
  - exact Hcount.
  - exact Hlater.
Defined.

(** ** Ephemeral mode *)

Lemma with_try_finally_yield {P} (prologue : M P) (udid : string)
    (fin : M unit) (body : string -> M unit) h t t1 p :
  prologue h t = (Ok p, t1) ->
  with_ (gen_try_finally (prologue ;; yield udid) fin) body h t =
    try_finally (body udid) fin h t1.
Proof.
  intros Hp. unfold with_, gen_try_finally, bind, yield, ret. rewrite Hp.
  simpl. unfold try_finally, raise, ret.
  destruct (body udid h t1) as [[[]|e] t2]; reflexivity.
Qed.

Lemma with_bind {A B} (m : M A) (g : A -> generator B)
    (body : B -> M unit) h t :
  with_ (x <- m ;; g x) body h t =
    match m h t with
    | (Ok a, t1) => with_ (g a) body h t1
    | (Raise e, t1) => (Raise e, t1)
    end.
Proof.
  unfold with_, bind. destruct (m h t) as [[a|e] t1]; reflexivity.
Qed.

(** C3. Once the create command has succeeded, leaving the scoped unit of
    work, normally or by an exception, issues the shutdown command and
    then the delete command against the created instance, once each and
    as the last two commands. The exit status of shutdown is ignored; a
    failing delete raises [CalledProcessError]; otherwise the outcome of
    the unit of work is the outcome of the scope. *)
Theorem ephemeral_teardown simctl_path device version
    (body : string -> M unit) h t :
  let create :=
    [simctl_path; "create"; "TestDevice"; device;
     "com.apple.CoreSimulator.SimRuntime.iOS-"
       +:+ Py.replace_char version "." "-"] in
  let created := run_process h t create in
  let udid := Py.rstrip (stdout created) in
  let started := t ++ [Run create None; Run ["pkill"; "Simulator"] None] in
  let work := body udid h started in
  let shutdown := [simctl_path; "shutdown"; udid] in
  let delete := [simctl_path; "delete"; udid] in
  let deleted := run_process h (work.2 ++ [Run shutdown None]) delete in
  returncode created = 0 ->
  with_ (temporary_ios_simulator simctl_path device version) body h t =
    (if returncode deleted =? 0 then work.1
     else Raise (CalledProcessError (returncode deleted) delete),
     work.2 ++ [Run shutdown None; Run delete None]).
Proof.
  intros create created udid started work shutdown delete deleted Hcreated.
  unfold temporary_ios_simulator. fold create.
  rewrite with_bind. unfold subprocess_run at 1.
  fold created. rewrite Hcreated. cbn [andb negb Z.eqb]. fold udid.
  fold shutdown delete.
  rewrite (with_try_finally_yield _ udid _ body h _ started
             (run_process h (t ++ [Run create None]) ["pkill"; "Simulator"]))
    by (unfold subprocess_run, started; rewrite <- app_assoc; reflexivity).
  unfold try_finally. fold work. unfold deleted. clear deleted.
  destruct work as [r t2]. simpl.
  unfold bind, subprocess_run, ret. simpl.
  rewrite <- app_assoc. simpl.
  destruct (returncode _ =? 0); reflexivity.
Qed.

Lemma ephemeral_teardown_witness :
  let create :=
    ["simctl"; "create"; "TestDevice"; "iPhone 8";
     "com.apple.CoreSimulator.SimRuntime.iOS-13-2"] in
  let trace :=
    [Run create None; Run ["pkill"; "Simulator"] None;
     Run ["simctl"; "install"; "AAAA-1111"; "App.app"] None;
     Run ["simctl"; "shutdown"; "AAAA-1111"] None;
     Run ["simctl"; "delete"; "AAAA-1111"] None] in
  with_ (temporary_ios_simulator "simctl" "iPhone 8" "13.2")
    Scenario.failing_work (Scenario.failing "shutdown") []
    = (Raise (Exception "the unit of work failed"), trace) /\
  with_ (temporary_ios_simulator "simctl" "iPhone 8" "13.2")
    Scenario.failing_work (Scenario.failing "delete") []
    = (Raise (CalledProcessError 1 ["simctl"; "delete"; "AAAA-1111"]), trace).
Proof.
  intros create trace. split.
  - rewrite (ephemeral_teardown "simctl" "iPhone 8" "13.2"
               Scenario.failing_work (Scenario.failing "shutdown") []);
      reflexivity.
  - rewrite (ephemeral_teardown "simctl" "iPhone 8" "13.2"
               Scenario.failing_work (Scenario.failing "delete") []);
      reflexivity.
Defined.

(** ** Persistent mode *)

(** C5. With the pair selected by discovery: a selected instance that is
    Shutdown gets exactly one boot command and, the command succeeding,
    its udid is returned; a selected instance in another state, Booted in
    particular, gets no command and its udid is returned; with no instance
    but a device type, one create command with the name and identifier of
    the device type is issued and, the command succeeding, its output with
    trailing whitespace removed is returned; with neither, the operation
    raises an error that carries the minimum OS, the device name and the
    OS version. A boot or create command that fails raises
    [CalledProcessError]. *)
Theorem persistent_acquisition simctl_path minimum_os sim_device
    sim_os_version h t t1 best_type best_device :
  discover_best_compatible_simulator simctl_path minimum_os sim_device
    sim_os_version h t = (Ok (best_type, best_device), t1) ->
  persistent_ios_simulator simctl_path minimum_os sim_device sim_os_version
    h t =
    match best_device, best_type with
    | Some instance, _ =>
        let udid := d_udid (Device.device instance) in
        let boot := [simctl_path; "boot"; udid] in
        let booted := run_process h t1 boot in
        if Device.is_booted instance then (Ok udid, t1)
        else if Device.is_shutdown instance then
          (if returncode booted =? 0 then Ok udid
           else Raise (CalledProcessError (returncode booted) boot),
           t1 ++ [Run boot None])
        else (Ok udid, t1)
    | None, Some type =>
        let create :=
          [simctl_path; "create";
           dt_name (DeviceType.device_type type);
           dt_identifier (DeviceType.device_type type)] in
        let created := run_process h t1 create in
        (if returncode created =? 0 then Ok (Py.rstrip (stdout created))
         else Raise (CalledProcessError (returncode created) create),
         t1 ++ [Run create None])
    | None, None =>
        (Raise (Exception
           ("Could not find or create a simulator compatible with minimum OS version "
              +:+ minimum_os +:+ " (device name " +:+ sim_device
              +:+ ", OS version " +:+ sim_os_version +:+ ")")),
         t1)
    end.
Proof.
  intros Hd. unfold persistent_ios_simulator, bind at 1. rewrite Hd.
  destruct best_device as [instance|].
  - destruct best_type as [type|];
      (destruct (Device.is_booted instance) eqn:Hb;
       [rewrite (booted_not_shutdown instance Hb); reflexivity|];
       destruct (Device.is_shutdown instance); [|reflexivity];
       unfold bind, subprocess_run, ret; cbn [andb];
       destruct (returncode _ =? 0); reflexivity).
  - destruct best_type as [type|]; [|reflexivity].
    unfold bind, subprocess_run, ret. cbn [andb].
    destruct (returncode _ =? 0); reflexivity.
Qed.

Lemma persistent_acquisition_witness :
  let listing := Run ["simctl"; "list"; "-j"] None in
  let out := "CCCC-3333" +:+ String "010" EmptyString in
  let iphone := DeviceType.make Catalog.iphone_8 1 in
  persistent_ios_simulator "simctl" "13.0" EmptyString EmptyString
    (Fixture.quiet_host out Catalog.with_shutdown_phone) []
    = (Ok "AAAA-1111", [listing; Run ["simctl"; "boot"; "AAAA-1111"] None]) /\
  persistent_ios_simulator "simctl" "13.0" EmptyString EmptyString
    (Fixture.quiet_host out Catalog.with_booted_pad) []
    = (Ok "BBBB-2222", [listing]) /\
  persistent_ios_simulator "simctl" "13.0" EmptyString EmptyString
    (Fixture.quiet_host out Catalog.types_only) []
    = (Ok "CCCC-3333",
       [listing;
        Run ["simctl"; "create"; "iPhone 8";
             "com.apple.CoreSimulator.SimDeviceType.iPhone-8"] None]) /\
  persistent_ios_simulator "simctl" "13.0" "iPhone X" "12.4"
    (Fixture.quiet_host out Fixture.empty_catalog) []
    = (Raise (Exception
         "Could not find or create a simulator compatible with minimum OS version 13.0 (device name iPhone X, OS version 12.4)"),
       [listing]).
Proof.
  intros listing out iphone. split; [|split; [|split]].
  - rewrite (persistent_acquisition "simctl" "13.0" EmptyString EmptyString
               (Fixture.quiet_host out Catalog.with_shutdown_phone) []
               [listing] (Some iphone)
               (Some (Device.make Catalog.phone_shutdown iphone)));
      [reflexivity | vm_compute; reflexivity].
  - rewrite (persistent_acquisition "simctl" "13.0" EmptyString EmptyString
               (Fixture.quiet_host out Catalog.with_booted_pad) []
               [listing] (Some iphone)
               (Some (Device.make Catalog.pad_booted
                        (DeviceType.make Catalog.ipad_pro 2))));
      [reflexivity | vm_compute; reflexivity].
  - rewrite (persistent_acquisition "simctl" "13.0" EmptyString EmptyString
               (Fixture.quiet_host out Catalog.types_only) []
               [listing] (Some iphone) None);
      [reflexivity | vm_compute; reflexivity].
  - rewrite (persistent_acquisition "simctl" "13.0" "iPhone X" "12.4"
               (Fixture.quiet_host out Fixture.empty_catalog) []
               [listing] None None);
      [reflexivity | vm_compute; reflexivity].
Defined.

(** ** The top-level choice of mode *)

Lemma bind_ext {A B} (m : M A) (k1 k2 : A -> M B) h t :
  (forall a h' t', k1 a h' t' = k2 a h' t') ->
  bind m k1 h t = bind m k2 h t.
Proof.
  intros Hk. unfold bind. destruct (m h t) as [[a|e] t1]; [apply Hk|reflexivity].
Qed.

(** C10. For all arguments, both filters supplied or not, the top-level
    scope yields what the persistent path returns, after the same
    commands, and leaving the scope adds nothing: the scope around a unit
    of work is the persistent path followed by the unit of work, and
    [main] is the path lookup, the persistent path and the application
    run. No create-TestDevice, pkill, shutdown or delete command of the
    ephemeral path is part of it. *)
Theorem top_level_is_persistent simctl_path minimum_os sim_device
    sim_os_version :
  (forall h t,
     yielded_value
       (ios_simulator simctl_path minimum_os sim_device sim_os_version h t)
     = persistent_ios_simulator simctl_path minimum_os sim_device
         sim_os_version h t) /\
  (forall (body : string -> M unit) h t,
     with_ (ios_simulator simctl_path minimum_os sim_device sim_os_version)
       body h t
     = (udid <- persistent_ios_simulator simctl_path minimum_os sim_device
                  sim_os_version ;;
        body udid) h t) /\
  (forall ios_application_output_path app_name h t,
     main sim_device sim_os_version ios_application_output_path app_name
       minimum_os h t
     = (xcode_select_result <-
          subprocess_run ["xcode-select"; "-p"] None true ;;
        let developer_path := Py.rstrip (stdout xcode_select_result) in
        let simctl_path :=
          Py.path_join (Py.path_join (Py.path_join developer_path "usr") "bin")
            "simctl" in
        simulator_udid <-
          persistent_ios_simulator simctl_path minimum_os sim_device
            sim_os_version ;;
        run_app_in_simulator simulator_udid developer_path simctl_path
          ios_application_output_path app_name) h t).
Proof.
  assert (Hwith : forall simctl_path (body : string -> M unit) h t,
    with_ (ios_simulator simctl_path minimum_os sim_device sim_os_version)
      body h t
    = (udid <- persistent_ios_simulator simctl_path minimum_os sim_device
                 sim_os_version ;;
       body udid) h t).
  { intros sp body h t. unfold ios_simulator. rewrite with_bind.
    unfold bind at 1.
    destruct (persistent_ios_simulator sp minimum_os sim_device
                sim_os_version h t) as [[udid|e] t1]; [|reflexivity].
    unfold with_, yield, ret, raise. simpl.
    destruct (body udid h t1) as [[[]|e] t2]; reflexivity. }
  split; [|split].
  - intros h t. unfold ios_simulator, bind, yield, ret.
    destruct (persistent_ios_simulator simctl_path minimum_os sim_device
                sim_os_version h t) as [[udid|e] t1]; reflexivity.
  - apply Hwith.
  - intros ios_application_output_path app_name h t.
    unfold main. apply bind_ext. intros xcode_select_result h' t'.
    apply Hwith.
Qed.

(** * Further properties *)

(** ** VersionKey: decoding, padding, ignored components *)

(** The three bytes of the key give the components back. *)
Theorem version_key_decode v c1 c2 c3 major minor micro :
  first_three_components v = [c1; c2; c3] ->
  Py.int c1 = Ok major -> Py.int c2 = Ok minor -> Py.int c3 = Ok micro ->
  0 <= minor <= 255 -> 0 <= micro <= 255 ->
  exists key,
    minimum_os_to_simctl_runtime_version v = Ok key /\
    Z.shiftr key 16 = major /\
    Z.land (Z.shiftr key 8) 255 = minor /\
    Z.land key 255 = micro.
Proof.
  intros Hc H1 H2 H3 Hmi Hmc.
  exists (pack major minor micro).
  rewrite (version_key_unfold v c1 c2 c3 Hc), H1, H2, H3. simpl.
  split; [reflexivity|].
  rewrite pack_arith by lia.
  rewrite !Z.shiftr_div_pow2 by lia.
  change 255 with (Z.ones 8). rewrite !Z.land_ones by lia.
  change (2 ^ 16) with 65536. change (2 ^ 8) with 256.
  repeat split.
  - symmetry. apply (Z.div_unique _ 65536 major (minor * 256 + micro)); lia.
  - replace ((major * 65536 + minor * 256 + micro) / 256)
      with (major * 256 + minor)
      by (apply (Z.div_unique _ 256 _ micro); lia).
    symmetry. apply (Z.mod_unique _ 256 major minor); lia.
  - symmetry. apply (Z.mod_unique _ 256 (major * 256 + minor) micro); lia.
Qed.

Lemma version_key_decode_witness :
  exists key,
    minimum_os_to_simctl_runtime_version "13.2.3" = Ok key /\
    Z.shiftr key 16 = 13 /\
    Z.land (Z.shiftr key 8) 255 = 2 /\
    Z.land key 255 = 3.
Proof.
  apply (version_key_decode "13.2.3" "13" "2" "3" 13 2 3);
    (reflexivity || lia).
Defined.

(** With three components or more in front, whatever follows the next dot
    is ignored, numeric or not. *)
Theorem version_key_ignores_rest v w :
  (3 <= length (Py.split "." v))%nat ->
  minimum_os_to_simctl_runtime_version (v +:+ String "." w) =
    minimum_os_to_simctl_runtime_version v.
Proof.
  intros Hlen. unfold minimum_os_to_simctl_runtime_version.
  rewrite split_app.
  destruct (Py.split "." v) as [|a [|b [|c l]]]; simpl in Hlen; try lia.
  reflexivity.
Qed.

Lemma version_key_ignores_rest_witness :
  minimum_os_to_simctl_runtime_version ("13.2.3" +:+ String "." "beta")
  = Ok 0x0D0203.
Proof.
  rewrite (version_key_ignores_rest "13.2.3" "beta"); [reflexivity|].
  vm_compute. lia.
Defined.

(** With fewer than three components, writing one more ".0" changes
    nothing: missing components count as 0. *)
Theorem version_key_padding v :
  (length (Py.split "." v) < 3)%nat ->
  minimum_os_to_simctl_runtime_version (v +:+ ".0") =
    minimum_os_to_simctl_runtime_version v.
Proof.
  intros Hlen. unfold minimum_os_to_simctl_runtime_version.
  change (v +:+ ".0") with (v +:+ String "." "0").
  rewrite split_app.
  pose proof (split_nonempty "." v) as Hne.
  destruct (Py.split "." v) as [|a [|b [|c l]]]; simpl in Hlen;
    try lia; try congruence; reflexivity.
Qed.

Lemma version_key_padding_witness :
  minimum_os_to_simctl_runtime_version ("13" +:+ ".0") = Ok 0x0D0000.
Proof.
  rewrite (version_key_padding "13"); [reflexivity|]. vm_compute. lia.
Defined.

(** ** Family classification *)

(** A non-empty productFamily decides the family alone: the device type is
    an iPhone exactly when it says "iPhone", an iPad exactly when it says
    "iPad", whatever the identifier holds, and never both. Without it (or
    with an empty one) the identifier decides, by substring. *)
Theorem family_classification (dt : DeviceType.t) :
  (forall family,
     dt_productFamily (DeviceType.device_type dt) = Some family ->
     family <> EmptyString ->
     (DeviceType.is_iphone dt = true <-> family = "iPhone") /\
     (DeviceType.is_ipad dt = true <-> family = "iPad") /\
     not_both_families dt) /\
  (dt_productFamily (DeviceType.device_type dt) = None \/
   dt_productFamily (DeviceType.device_type dt) = Some EmptyString ->
   DeviceType.is_iphone dt
     = Py.contains (dt_identifier (DeviceType.device_type dt)) "iPhone" /\
   DeviceType.is_ipad dt
     = Py.contains (dt_identifier (DeviceType.device_type dt)) "iPad").
Proof.
  split.
  - intros family Hf Hne.
    unfold not_both_families, DeviceType.is_iphone, DeviceType.is_ipad,
      DeviceType.has_product_family_or_identifier.
    rewrite Hf.
    assert (Ht : Py.truthy family = true).
    { unfold Py.truthy. destruct (String.eqb_spec family EmptyString);
        [contradiction|reflexivity]. }
    rewrite Ht, !String.eqb_eq.
    split; [reflexivity|]. split; [reflexivity|].
    destruct (String.eqb_spec family "iPhone") as [->|]; reflexivity.
  - unfold DeviceType.is_iphone, DeviceType.is_ipad,
      DeviceType.has_product_family_or_identifier.
    intros [-> | ->]; split; reflexivity.
Qed.

Lemma family_classification_witness :
  DeviceType.is_ipad (DeviceType.make Catalog.ipad_air 0) = true /\
  DeviceType.is_iphone (DeviceType.make Catalog.ipad_air 0) = false /\
  DeviceType.is_ipad (DeviceType.make Catalog.ipad_pro 2) = true.
Proof.
  destruct (family_classification (DeviceType.make Catalog.ipad_air 0))
    as [Hfam _].
  destruct (Hfam "iPad" eq_refl ltac:(discriminate)) as (Hphone & Hpad & _).
  destruct (family_classification (DeviceType.make Catalog.ipad_pro 2))
    as [_ Hid].
  destruct (Hid (or_introl eq_refl)) as [_ Hpro].
  split; [apply Hpad; reflexivity|]. split.
  - apply not_true_is_false. intros E. apply Hphone in E. discriminate.
  - rewrite Hpro. reflexivity.
Defined.

(** ** The device-type order is a strict total order *)

(** On the device types of a catalog that are in one family, exactly one
    of [a < b], [a = b], [b < a] holds, and [<] is transitive. *)
Theorem device_type_order_total simctl_data a b c :
  a ∈ enumerate_device_types simctl_data ->
  b ∈ enumerate_device_types simctl_data ->
  one_family a -> one_family b -> one_family c ->
  (DeviceType.lt a b = true /\ a <> b /\ DeviceType.lt b a = false \/
   DeviceType.lt a b = false /\ a = b /\ DeviceType.lt b a = false \/
   DeviceType.lt a b = false /\ a <> b /\ DeviceType.lt b a = true) /\
  (DeviceType.lt a b = true -> DeviceType.lt b c = true ->
   DeviceType.lt a c = true).
Proof.
  intros Ha Hb Fa Fb Fc. split.
  - pose proof (device_type_lt_key a b Fa Fb) as Kab.
    pose proof (device_type_lt_key b a Fb Fa) as Kba.
    destruct (decide (DeviceType.simctl_list_index a
                      = DeviceType.simctl_list_index b)) as [Heq|Hidx].
    + apply (enumerate_device_types_index simctl_data a b Ha Hb) in Heq
        as ->.
      right; left.
      assert (E : DeviceType.lt b b = false)
        by (apply not_true_is_false; intros E; apply Kab in E; lia).
      auto.
    + assert (Hne : a <> b) by (intros ->; apply Hidx; reflexivity).
      assert (Pab : DeviceType.lt a b = true \/
                    ~ (family_rank a < family_rank b \/
                       family_rank a = family_rank b /\
                       DeviceType.simctl_list_index a
                         < DeviceType.simctl_list_index b)%nat).
      { destruct (DeviceType.lt a b) eqn:E; [left; reflexivity|right].
        intros H. apply Kab in H. congruence. }
      assert (Pba : DeviceType.lt b a = true \/
                    ~ (family_rank b < family_rank a \/
                       family_rank b = family_rank a /\
                       DeviceType.simctl_list_index b
                         < DeviceType.simctl_list_index a)%nat).
      { destruct (DeviceType.lt b a) eqn:E; [left; reflexivity|right].
        intros H. apply Kba in H. congruence. }
      destruct Pab as [Eab|Nab].
      * left. split; [exact Eab|]. split; [exact Hne|].
        apply device_type_lt_asym; assumption.
      * destruct Pba as [Eba|Nba]; [|exfalso; lia].
        right; right. split; [|split; [exact Hne | exact Eba]].
        apply device_type_lt_asym; assumption.
  - apply device_type_lt_trans; assumption.
Qed.

Lemma device_type_order_total_witness :
  DeviceType.lt (DeviceType.make Catalog.ipad_air 0)
    (DeviceType.make Catalog.iphone_8 1) = true.
Proof.
  destruct (device_type_order_total Catalog.types_only
              (DeviceType.make Catalog.ipad_air 0)
              (DeviceType.make Catalog.ipad_pro 2)
              (DeviceType.make Catalog.iphone_8 1)) as [_ Htrans].
  - apply enumerate_device_types_lookup. reflexivity.
  - apply enumerate_device_types_lookup. reflexivity.
  - reflexivity.
  - reflexivity.
  - reflexivity.
  - apply Htrans; reflexivity.
Defined.

(** ** CompatibilityFilter: runtimes *)

Lemma runtime_loop_spec sim_os_version (l : list runtime_json)
    (acc : gset string) id :
  id ∈ foldl (fun acc runtime =>
                if negb (rt_isAvailable runtime) then acc
                else if Py.truthy sim_os_version &&
                        negb (String.eqb (rt_version runtime) sim_os_version)
                then acc
                else acc ∪ {[ rt_identifier runtime ]}) acc l
  <-> id ∈ acc \/
      exists runtime, runtime ∈ l /\
        runtime_is_compatible sim_os_version runtime /\
        rt_identifier runtime = id.
Proof.
  revert acc. induction l as [|r l IH]; intros acc; simpl.
  - split; [auto|]. intros [H|(r & Hr & _)]; [exact H|].
    apply elem_of_nil in Hr. contradiction.
  - rewrite IH. unfold runtime_is_compatible.
    destruct (rt_isAvailable r) eqn:Ha; simpl.
    + destruct (Py.truthy sim_os_version) eqn:Ht; simpl.
      * destruct (String.eqb_spec (rt_version r) sim_os_version) as [Hv|Hv];
          simpl.
        -- rewrite elem_of_union, elem_of_singleton. split.
           ++ intros [[H|H]|(r' & Hr' & Hc & Hid)]; [auto| |].
              ** right. exists r. rewrite elem_of_cons. auto.
              ** right. exists r'. rewrite elem_of_cons. auto.
           ++ intros [H|(r' & Hr' & Hc & Hid)]; [auto|].
              apply elem_of_cons in Hr' as [->|Hr']; [auto|].
              right. exists r'. auto.
        -- split.
           ++ intros [H|(r' & Hr' & Hc & Hid)]; [auto|].
              right. exists r'. rewrite elem_of_cons. auto.
           ++ intros [H|(r' & Hr' & Hc & Hid)]; [auto|].
              apply elem_of_cons in Hr' as [->|Hr'].
              ** destruct Hc as [_ [Hc|Hc]]; congruence.
              ** right. exists r'. auto.
      * rewrite elem_of_union, elem_of_singleton. split.
        -- intros [[H|H]|(r' & Hr' & Hc & Hid)]; [auto| |].
           ++ right. exists r. rewrite elem_of_cons. auto.
           ++ right. exists r'. rewrite elem_of_cons. auto.
        -- intros [H|(r' & Hr' & Hc & Hid)]; [auto|].
           apply elem_of_cons in Hr' as [->|Hr']; [auto|].
           right. exists r'. auto.
    + split.
      * intros [H|(r' & Hr' & Hc & Hid)]; [auto|].
        right. exists r'. rewrite elem_of_cons. auto.
      * intros [H|(r' & Hr' & Hc & Hid)]; [auto|].
        apply elem_of_cons in Hr' as [->|Hr'].
        -- destruct Hc as [Hc _]. congruence.
        -- right. exists r'. auto.
Qed.

Lemma runtime_identifier_compatible_iff simctl_data sim_os_version id :
  id ∈ compatible_runtime_identifiers simctl_data sim_os_version <->
  exists runtime,
    runtime ∈ runtimes simctl_data /\
    rt_isAvailable runtime = true /\
    (sim_os_version = EmptyString \/ rt_version runtime = sim_os_version) /\
    rt_identifier runtime = id.
Proof.
  unfold compatible_runtime_identifiers. rewrite runtime_loop_spec.
  assert (Ht : Py.truthy sim_os_version = false <-> sim_os_version = EmptyString).
  { unfold Py.truthy.
    destruct (String.eqb_spec sim_os_version EmptyString); simpl;
      split; congruence. }
  unfold runtime_is_compatible. split.
  - intros [H|(r & Hr & [Ha Hv] & Hid)]; [set_solver|].
    exists r. rewrite <- Ht. auto.
  - intros (r & Hr & Ha & Hv & Hid). right. exists r. rewrite Ht. auto.
Qed.

(** The runtime identifiers let through are exactly those of the runtimes
    that are available and, when an OS version is asked for, have exactly
    that version string. *)
Theorem compatible_runtime_identifiers_spec simctl_data sim_os_version id :
  id ∈ compatible_runtime_identifiers simctl_data sim_os_version <->
  exists runtime,
    runtime ∈ runtimes simctl_data /\
    rt_isAvailable runtime = true /\
    (sim_os_version = EmptyString \/ rt_version runtime = sim_os_version) /\
    rt_identifier runtime = id.
Proof. apply runtime_identifier_compatible_iff. Qed.

(** ** Selector: what is selected passes every filter *)

Lemma compatible_devices_sorted simctl_data cdts crids :
  compatible_devices simctl_data cdts crids
  = sort Device.lt (candidate_devices simctl_data cdts crids).
Proof. reflexivity. Qed.

Lemma elem_of_candidate_devices simctl_data cdts crids d :
  d ∈ candidate_devices simctl_data cdts crids <->
  exists runtime_identifier instances,
    (runtime_identifier, instances) ∈ devices simctl_data /\
    runtime_identifier ∈ crids /\
    Device.device d ∈ instances /\
    d_isAvailable (Device.device d) = true /\
    List.find
      (fun device_type =>
         String.eqb (d_deviceTypeIdentifier (Device.device d))
           (dt_identifier (DeviceType.device_type device_type)))
      cdts = Some (Device.device_type d).
Proof.
  unfold candidate_devices. rewrite list_elem_of_In, in_flat_map. split.
  - intros ([rid devs] & Hin & Hd). exists rid, devs.
    apply list_elem_of_In in Hin. split; [exact Hin|].
    destruct (decide (rid ∈ crids)) as [Hrid|]; [|destruct Hd].
    split; [exact Hrid|].
    apply list_elem_of_In, list_elem_of_omap in Hd as (dev & Hdev & Hsome).
    destruct (d_isAvailable dev) eqn:Ha; [|discriminate]. simpl in Hsome.
    destruct (List.find _ cdts) as [dt|] eqn:Hf; [|discriminate].
    injection Hsome as <-. simpl. auto.
  - intros (rid & devs & Hin & Hrid & Hdev & Ha & Hf).
    exists (rid, devs). split; [apply list_elem_of_In, Hin|].
    rewrite decide_True by exact Hrid.
    apply list_elem_of_In, list_elem_of_omap.
    exists (Device.device d). split; [exact Hdev|].
    rewrite Ha, Hf. destruct d; reflexivity.
Qed.

(** A device type is selected exactly when some device type of the
    catalog passes the device-type pass, and the selected one passes it. *)
Theorem selected_device_type_compatible simctl_data minimum_runtime_version
    sim_device sim_os_version :
  match (best_compatible simctl_data minimum_runtime_version sim_device
           sim_os_version).1 with
  | Some best =>
      best ∈ enumerate_device_types simctl_data /\
      device_type_is_compatible minimum_runtime_version (folded sim_device)
        best = true
  | None =>
      forall dt, dt ∈ enumerate_device_types simctl_data ->
        device_type_is_compatible minimum_runtime_version (folded sim_device)
          dt = false
  end.
Proof.
  unfold best_compatible. simpl. unfold compatible_device_types.
  destruct (last (sort DeviceType.lt _)) as [best|] eqn:Hlast.
  - apply last_Some_elem_of, elem_of_sort, elem_of_filterb in Hlast.
    exact Hlast.
  - apply last_None in Hlast. intros dt Hdt.
    apply not_true_is_false. intros Hc.
    assert (Hin : dt ∈ sort DeviceType.lt
              (List.filter
                 (device_type_is_compatible minimum_runtime_version
                    (folded sim_device))
                 (enumerate_device_types simctl_data)))
      by (apply elem_of_sort, elem_of_filterb; auto).
    rewrite Hlast in Hin. apply elem_of_nil in Hin. exact Hin.
Qed.

Lemma selected_device_type_compatible_witness :
  device_type_is_compatible 0x0D0000 (folded "IPAD")
    (DeviceType.make Catalog.ipad_pro 2) = true /\
  (forall dt, dt ∈ enumerate_device_types Catalog.types_only ->
     device_type_is_compatible 0x0D0000 (folded "watch") dt = false).
Proof.
  pose proof (selected_device_type_compatible Catalog.types_only 0x0D0000
                "IPAD" EmptyString) as Hsome.
  pose proof (selected_device_type_compatible Catalog.types_only 0x0D0000
                "watch" EmptyString) as Hnone.
  assert (E1 : (best_compatible Catalog.types_only 0x0D0000 "IPAD"
                  EmptyString).1
               = Some (DeviceType.make Catalog.ipad_pro 2))
    by (vm_compute; reflexivity).
  assert (E2 : (best_compatible Catalog.types_only 0x0D0000 "watch"
                  EmptyString).1 = None)
    by (vm_compute; reflexivity).
  rewrite E1 in Hsome. rewrite E2 in Hnone.
  split; [apply Hsome | exact Hnone].
Defined.

(** A selected instance is an available instance of the catalog, listed
    under an available runtime that matches the OS version asked for, and
    its device type passes the device-type pass and has the identifier the
    instance names. No instance is selected only when the catalog has no
    such instance. *)
Theorem selected_instance_compatible simctl_data minimum_runtime_version
    sim_device sim_os_version :
  let types :=
    compatible_device_types simctl_data minimum_runtime_version
      (folded sim_device) in
  match (best_compatible simctl_data minimum_runtime_version sim_device
           sim_os_version).2 with
  | Some best =>
      exists runtime_identifier instances runtime,
        (runtime_identifier, instances) ∈ devices simctl_data /\
        Device.device best ∈ instances /\
        d_isAvailable (Device.device best) = true /\
        runtime ∈ runtimes simctl_data /\
        rt_identifier runtime = runtime_identifier /\
        rt_isAvailable runtime = true /\
        (sim_os_version = EmptyString \/ rt_version runtime = sim_os_version) /\
        Device.device_type best ∈ enumerate_device_types simctl_data /\
        device_type_is_compatible minimum_runtime_version (folded sim_device)
          (Device.device_type best) = true /\
        d_deviceTypeIdentifier (Device.device best)
          = dt_identifier (DeviceType.device_type (Device.device_type best))
  | None =>
      forall runtime_identifier instances device runtime dt,
        (runtime_identifier, instances) ∈ devices simctl_data ->
        device ∈ instances ->
        d_isAvailable device = true ->
        runtime ∈ runtimes simctl_data ->
        rt_identifier runtime = runtime_identifier ->
        rt_isAvailable runtime = true ->
        (sim_os_version = EmptyString \/ rt_version runtime = sim_os_version) ->
        dt ∈ types ->
        d_deviceTypeIdentifier device
          <> dt_identifier (DeviceType.device_type dt)
  end.
Proof.
  intros types. unfold best_compatible. simpl. fold types.
  rewrite compatible_devices_sorted.
  destruct (last (sort Device.lt _)) as [best|] eqn:Hlast.
  - apply last_Some_elem_of, elem_of_sort, elem_of_candidate_devices in Hlast
      as (rid & devs & Hin & Hrid & Hdev & Ha & Hf).
    apply runtime_identifier_compatible_iff in Hrid
      as (runtime & Hr & Hra & Hrv & Hri).
    apply find_some in Hf as [Hty Hid].
    apply list_elem_of_In, elem_of_sort, elem_of_filterb in Hty as [Hty Hc].
    apply String.eqb_eq in Hid.
    exists rid, devs, runtime. repeat (split; [assumption|]). assumption.
  - apply last_None in Hlast.
    intros rid devs device runtime dt Hin Hdev Ha Hr Hri Hra Hrv Hdt Hid.
    destruct (List.find
                (fun device_type =>
                   String.eqb (d_deviceTypeIdentifier device)
                     (dt_identifier (DeviceType.device_type device_type)))
                types) as [found|] eqn:Hf.
    + assert (Hc : Device.make device found
                   ∈ sort Device.lt
                       (candidate_devices simctl_data types
                          (compatible_runtime_identifiers simctl_data
                             sim_os_version))).
      { apply elem_of_sort, elem_of_candidate_devices.
        exists rid, devs. simpl. repeat (split; [try assumption|]).
        - apply runtime_identifier_compatible_iff. exists runtime. auto.
        - exact Hf. }
      rewrite Hlast in Hc. apply elem_of_nil in Hc. exact Hc.
    + apply String.eqb_eq in Hid.
      rewrite (find_none _ _ Hf dt) in Hid; [discriminate|].
      apply list_elem_of_In, Hdt.
Qed.

Lemma selected_instance_compatible_witness :
  (exists runtime_identifier instances runtime,
     (runtime_identifier, instances) ∈ devices Catalog.with_shutdown_phone /\
     Catalog.phone_shutdown ∈ instances /\
     d_isAvailable Catalog.phone_shutdown = true /\
     runtime ∈ runtimes Catalog.with_shutdown_phone /\
     rt_identifier runtime = runtime_identifier /\
     rt_isAvailable runtime = true /\
     ("13.2" = EmptyString \/ rt_version runtime = "13.2")) /\
  (best_compatible Catalog.with_shutdown_phone 0x0D0000 EmptyString "12.4").2
  = None.
Proof.
  pose proof (selected_instance_compatible Catalog.with_shutdown_phone
                0x0D0000 EmptyString "13.2") as Hsome.
  assert (E : (best_compatible Catalog.with_shutdown_phone 0x0D0000
                 EmptyString "13.2").2
              = Some (Device.make Catalog.phone_shutdown
                        (DeviceType.make Catalog.iphone_8 1)))
    by (vm_compute; reflexivity).
  cbv zeta in Hsome. rewrite E in Hsome.
  destruct Hsome as (rid & insts & runtime & H1 & H2 & H3 & H4 & H5 & H6
                     & H7 & _).
  split.
  - exists rid, insts, runtime.
    repeat (split; [assumption|]). assumption.
  - vm_compute. reflexivity.
Defined.

(** ** Selector: an instance that is already booted is preferred *)

Lemma device_lt_key a b :
  settled a -> settled b ->
  Device.lt a b = true <->
  (state_rank a < state_rank b)%nat \/
  state_rank a = state_rank b /\
  DeviceType.lt (Device.device_type a) (Device.device_type b) = true.
Proof.
  intros [Sa _] [Sb _]. unfold Device.lt, state_rank.
  destruct (Device.is_booted a) eqn:Ba.
  - rewrite (booted_not_shutdown a Ba). simpl.
    destruct (Device.is_booted b) eqn:Bb.
    + rewrite (booted_not_shutdown b Bb). simpl.
      split; [intros H; right; auto | intros [H|[_ H]]; [lia|exact H]].
    + destruct Sb as [Sb|Sb]; [discriminate|]. rewrite Sb. simpl.
      split; [discriminate | intros [H|[H _]]; lia].
  - destruct Sa as [Sa|Sa]; [discriminate|]. rewrite Sa. simpl.
    destruct (Device.is_booted b) eqn:Bb.
    + split; [intros _; left; lia | reflexivity].
    + split; [intros H; right; auto | intros [H|[_ H]]; [lia|exact H]].
Qed.

Lemma device_lt_asym a b :
  settled a -> settled b -> Device.lt a b = true -> Device.lt b a = false.
Proof.
  intros Sa Sb Hab. apply (device_lt_key a b Sa Sb) in Hab.
  apply not_true_is_false. intros Hba.
  apply (device_lt_key b a Sb Sa) in Hba.
  destruct Hab as [H|[H Hab]], Hba as [H'|[H' Hba]]; try lia.
  rewrite (device_type_lt_asym _ _ (proj2 Sa) (proj2 Sb) Hab) in Hba.
  discriminate.
Qed.

Lemma device_lt_trans a b c :
  settled a -> settled b -> settled c ->
  Device.lt a b = true -> Device.lt b c = true -> Device.lt a c = true.
Proof.
  intros Sa Sb Sc Hab Hbc.
  apply (device_lt_key a b Sa Sb) in Hab.
  apply (device_lt_key b c Sb Sc) in Hbc.
  apply (device_lt_key a c Sa Sc).
  destruct Hab as [H|[H Hab]], Hbc as [H'|[H' Hbc]];
    [left; lia | left; lia | left; lia |].
  right. split; [lia|].
  apply (device_type_lt_trans _ (Device.device_type b));
    try assumption; [apply Sa | apply Sb | apply Sc].
Qed.

(** In a catalog whose instances are all Booted or Shutdown and whose
    device types are in one family at most, no candidate instance is above
    the selected one; so if any candidate is Booted, the selected instance
    is Booted. *)
Theorem selection_prefers_booted simctl_data minimum_runtime_version
    sim_device sim_os_version best :
  let candidates :=
    candidate_devices simctl_data
      (compatible_device_types simctl_data minimum_runtime_version
         (folded sim_device))
      (compatible_runtime_identifiers simctl_data sim_os_version) in
  Forall not_both_families (enumerate_device_types simctl_data) ->
  (forall runtime_identifier instances device,
     (runtime_identifier, instances) ∈ devices simctl_data ->
     device ∈ instances ->
     d_state device = "Booted" \/ d_state device = "Shutdown") ->
  (best_compatible simctl_data minimum_runtime_version sim_device
     sim_os_version).2 = Some best ->
  best ∈ candidates /\
  forall x, x ∈ candidates ->
    Device.lt best x = false /\
    (Device.is_booted x = true -> Device.is_booted best = true).
Proof.
  intros candidates Hfam Hstates Hbest.
  unfold best_compatible in Hbest. simpl in Hbest.
  rewrite compatible_devices_sorted in Hbest. fold candidates in Hbest.
  assert (Hsettled : Forall settled candidates).
  { rewrite Forall_forall. intros d Hd.
    apply elem_of_candidate_devices in Hd
      as (rid & insts & Hin & _ & Hdev & _ & Hf).
    split.
    - unfold Device.is_booted, Device.is_shutdown.
      destruct (Hstates rid insts _ Hin Hdev) as [-> | ->]; auto.
    - apply find_some in Hf as [Hty _].
      apply list_elem_of_In, elem_of_sort, elem_of_filterb in Hty
        as [Hty Hc].
      apply compatible_in_family in Hc.
      rewrite Forall_forall in Hfam. specialize (Hfam _ Hty).
      unfold one_family, not_both_families in *.
      destruct (DeviceType.is_iphone _), (DeviceType.is_ipad _);
        simpl in *; congruence. }
  destruct (last_sort_max Device.lt settled device_lt_asym device_lt_trans
              candidates best Hsettled Hbest) as [Hin Hmax].
  split; [exact Hin|]. intros x Hx. split; [apply Hmax, Hx|].
  intros Bx. rewrite Forall_forall in Hsettled.
  destruct (Hsettled best Hin) as [[Bb|Sb] _]; [exact Bb|].
  specialize (Hmax x Hx). unfold Device.lt in Hmax.
  rewrite Sb, Bx in Hmax. discriminate.
Qed.

Lemma selection_prefers_booted_witness :
  Device.lt
    (Device.make Catalog.pad_booted (DeviceType.make Catalog.ipad_pro 2))
    (Device.make Catalog.phone_shutdown (DeviceType.make Catalog.iphone_8 1))
  = false.
Proof.
  destruct (selection_prefers_booted Catalog.with_booted_pad 0x0D0000
              EmptyString EmptyString
              (Device.make Catalog.pad_booted
                 (DeviceType.make Catalog.ipad_pro 2))) as [_ Hmax].
  - repeat constructor.
  - intros rid insts device Hin Hdev.
    apply list_elem_of_singleton in Hin. injection Hin as -> ->.
    apply elem_of_cons in Hdev as [->|Hdev]; [right; reflexivity|].
    apply list_elem_of_singleton in Hdev as ->. left; reflexivity.
  - vm_compute. reflexivity.
  - apply (Hmax (Device.make Catalog.phone_shutdown
                   (DeviceType.make Catalog.iphone_8 1))).
    apply elem_of_candidate_devices.
    exists (rt_identifier Catalog.ios_13),
      [Catalog.phone_shutdown; Catalog.pad_booted].
    split; [apply list_elem_of_singleton; reflexivity|].
    split; [apply runtime_identifier_compatible_iff;
            exists Catalog.ios_13;
            split; [apply list_elem_of_singleton; reflexivity|auto]|].
    split; [apply elem_of_cons; left; reflexivity|].
    split; reflexivity.
Defined.

(** ** CompatibilityFilter: the device name is matched without case *)

Lemma folded_casefold sim_device : folded sim_device = Py.casefold sim_device.
Proof. destruct sim_device; reflexivity. Qed.

(** Two device-name filters that differ only in letter case select the
    same pair. *)
Theorem name_filter_ignores_case simctl_path minimum_os sim_device
    sim_device' sim_os_version h t :
  Py.casefold sim_device = Py.casefold sim_device' ->
  discover_best_compatible_simulator simctl_path minimum_os sim_device
    sim_os_version h t
  = discover_best_compatible_simulator simctl_path minimum_os sim_device'
      sim_os_version h t.
Proof.
  intros Hfold. unfold discover_best_compatible_simulator, best_compatible.
  rewrite !folded_casefold, Hfold. reflexivity.
Qed.

Lemma name_filter_ignores_case_witness :
  discover_best_compatible_simulator "simctl" "13.0" "IPHONE 8" EmptyString
    (Fixture.quiet_host EmptyString Catalog.types_only) []
  = discover_best_compatible_simulator "simctl" "13.0" "iPhone 8" EmptyString
      (Fixture.quiet_host EmptyString Catalog.types_only) [].
Proof.
  apply (name_filter_ignores_case "simctl" "13.0" "IPHONE 8" "iPhone 8").
  reflexivity.
Defined.

(** ** Persistent mode never shuts down or deletes *)

(** Whatever the host answers, the persistent path issues the catalog
    listing and then at most one more command, a boot or a create. *)
Theorem persistent_commands simctl_path minimum_os sim_device sim_os_version
    h t :
  exists new,
    (persistent_ios_simulator simctl_path minimum_os sim_device
       sim_os_version h t).2
    = t ++ Run [simctl_path; "list"; "-j"] None :: new /\
    (new = [] \/
     (exists udid, new = [Run [simctl_path; "boot"; udid] None]) \/
     (exists name identifier,
        new = [Run [simctl_path; "create"; name; identifier] None])).
Proof.
  unfold persistent_ios_simulator, bind at 1,
    discover_best_compatible_simulator.
  destruct (json_load h _) as [simctl_data|]; [|exists []; auto].
  destruct (negb (returncode _ =? 0)); [exists []; auto|].
  destruct (minimum_os_to_simctl_runtime_version minimum_os)
    as [minimum_runtime_version|e]; [|exists []; auto].
  destruct (best_compatible simctl_data minimum_runtime_version sim_device
              sim_os_version) as [[type|] [instance|]].
  - destruct (Device.is_shutdown instance); [|exists []; auto].
    eexists. unfold bind, subprocess_run, ret. cbn [andb].
    destruct (negb (returncode _ =? 0)); simpl;
      (split; [rewrite <- app_assoc; reflexivity | right; left; eauto]).
  - eexists. unfold bind, subprocess_run, ret. cbn [andb].
    destruct (negb (returncode _ =? 0)); simpl;
      (split; [rewrite <- app_assoc; reflexivity | right; right; eauto]).
  - destruct (Device.is_shutdown instance); [|exists []; auto].
    eexists. unfold bind, subprocess_run, ret. cbn [andb].
    destruct (negb (returncode _ =? 0)); simpl;
      (split; [rewrite <- app_assoc; reflexivity | right; left; eauto]).
  - exists []. auto.
Qed.

(** ** Ephemeral mode: a create command that fails *)

(** When the create command fails, the scope raises its
    [CalledProcessError]; the unit of work does not run and nothing is
    killed, shut down or deleted. *)
Theorem ephemeral_create_failure simctl_path device version
    (body : string -> M unit) h t :
  let create :=
    [simctl_path; "create"; "TestDevice"; device;
     "com.apple.CoreSimulator.SimRuntime.iOS-"
       +:+ Py.replace_char version "." "-"] in
  returncode (run_process h t create) <> 0 ->
  with_ (temporary_ios_simulator simctl_path device version) body h t
  = (Raise (CalledProcessError (returncode (run_process h t create)) create),
     t ++ [Run create None]).
Proof.
  intros create Hfail. unfold temporary_ios_simulator. fold create.
  rewrite with_bind. unfold subprocess_run.
  apply Z.eqb_neq in Hfail. rewrite Hfail. reflexivity.
Qed.

Lemma ephemeral_create_failure_witness :
  let create :=
    ["simctl"; "create"; "TestDevice"; "iPhone 8";
     "com.apple.CoreSimulator.SimRuntime.iOS-13-2"] in
  with_ (temporary_ios_simulator "simctl" "iPhone 8" "13.2")
    Scenario.failing_work (Scenario.failing "create") []
  = (Raise (CalledProcessError 1 create), [Run create None]).
Proof.
  intros create.
  apply (ephemeral_create_failure "simctl" "iPhone 8" "13.2"
           Scenario.failing_work (Scenario.failing "create") []).
  vm_compute. discriminate.
Defined.

(** ** Boot Wait: a listing command that fails, and the time slept *)

Lemma wait_loop_abort n simctl_path udid h : forall k t,
  (k < n)%nat ->
  (forall i, (i < k)%nat ->
     returncode (poll_outcome h t simctl_path i) = 0 /\
     listing_reports_booted udid (stdout (poll_outcome h t simctl_path i))
       = false) ->
  returncode (poll_outcome h t simctl_path k) <> 0 ->
  wait_for_sim_to_boot_loop n simctl_path udid h t =
    (Raise (CalledProcessError
              (returncode (poll_outcome h t simctl_path k))
              (list_devices simctl_path)),
     t ++ polling simctl_path k ++ [Run (list_devices simctl_path) None]).
Proof.
  induction n as [|n IH]; intros k t Hk Hbefore Hfail; [lia|].
  simpl. unfold bind at 1, subprocess_run.
  fold (list_devices simctl_path).
  assert (H0 : run_process h t (list_devices simctl_path)
               = poll_outcome h t simctl_path 0)
    by (unfold poll_outcome; simpl; rewrite app_nil_r; reflexivity).
  rewrite H0. cbv zeta.
  destruct k as [|k].
  - apply Z.eqb_neq in Hfail. rewrite Hfail. reflexivity.
  - destruct (Hbefore 0%nat) as [Hrc Hb]; [lia|].
    rewrite Hrc. cbn [andb negb Z.eqb]. rewrite Hb.
    unfold bind, sleep.
    assert (Hshift : forall i,
      poll_outcome h ((t ++ [Run (list_devices simctl_path) None])
                        ++ [Sleep 1]) simctl_path i
      = poll_outcome h t simctl_path (S i)).
    { intros i. unfold poll_outcome. rewrite polling_S, <- !app_assoc.
      reflexivity. }
    rewrite (IH k ((t ++ [Run (list_devices simctl_path) None])
                     ++ [Sleep 1])).
    + rewrite Hshift, polling_S, <- !app_assoc. reflexivity.
    + lia.
    + intros i Hi. rewrite Hshift. apply Hbefore. lia.
    + rewrite Hshift. exact Hfail.
Qed.

(** If, after [k < 60] polls that show no booted line, the listing command
    exits with a non-zero status, the wait does not go on polling:
    [boot_simulator] raises the [CalledProcessError] of that command at
    once, without sleeping again. *)
Theorem boot_wait_listing_failure developer_path simctl_path udid h t
    (k : nat) :
  let opened := t ++ [Run (open_simulator developer_path udid) None] in
  returncode (run_process h t (open_simulator developer_path udid)) = 0 ->
  (k < 60)%nat ->
  (forall i, (i < k)%nat ->
     returncode (poll_outcome h opened simctl_path i) = 0 /\
     listing_reports_booted udid
       (stdout (poll_outcome h opened simctl_path i)) = false) ->
  returncode (poll_outcome h opened simctl_path k) <> 0 ->
  boot_simulator developer_path simctl_path udid h t =
    (Raise (CalledProcessError
              (returncode (poll_outcome h opened simctl_path k))
              (list_devices simctl_path)),
     opened ++ polling simctl_path k ++ [Run (list_devices simctl_path) None]).
Proof.
  intros opened Hopen Hk Hbefore Hfail.
  unfold boot_simulator, bind at 1, subprocess_run.
  fold (open_simulator developer_path udid). rewrite Hopen. simpl.
  fold opened. unfold bind, wait_for_sim_to_boot.
  rewrite (wait_loop_abort 60 simctl_path udid h k opened Hk Hbefore Hfail).
  reflexivity.
Qed.

Lemma boot_wait_listing_failure_witness :
  boot_simulator "/Xcode" "simctl" "AAAA-1111" (Scenario.failing "list") []
  = (Raise (CalledProcessError 1 (list_devices "simctl")),
     [Run (open_simulator "/Xcode" "AAAA-1111") None;
      Run (list_devices "simctl") None]).
Proof.
  apply (boot_wait_listing_failure "/Xcode" "simctl" "AAAA-1111"
           (Scenario.failing "list") [] 0%nat).
  - reflexivity.
  - lia.
  - intros i Hi. lia.
  - vm_compute. discriminate.
Defined.

Lemma seconds_slept_app t1 t2 :
  seconds_slept (t1 ++ t2) = seconds_slept t1 + seconds_slept t2.
Proof.
  unfold seconds_slept. induction t1 as [|e t1 IH]; simpl; [reflexivity|].
  destruct e; rewrite IH; lia.
Qed.

Lemma wait_loop_events n simctl_path udid h t :
  exists new,
    (wait_for_sim_to_boot_loop n simctl_path udid h t).2 = t ++ new /\
    Forall (fun e => e = Run (list_devices simctl_path) None \/ e = Sleep 1)
      new /\
    0 <= seconds_slept new <= Z.of_nat n.
Proof.
  revert t. induction n as [|n IH]; intros t.
  - exists []. rewrite app_nil_r. repeat split; [constructor|simpl; lia..].
  - simpl. unfold bind at 1, subprocess_run.
    fold (list_devices simctl_path).
    set (c := run_process h t (list_devices simctl_path)).
    assert (Hone : Forall
              (fun e => e = Run (list_devices simctl_path) None \/ e = Sleep 1)
              [Run (list_devices simctl_path) None])
      by (constructor; [left; reflexivity|constructor]).
    destruct (true && negb (returncode c =? 0)).
    + exists [Run (list_devices simctl_path) None].
      repeat split; [exact Hone|simpl; lia..].
    + destruct (listing_reports_booted udid (stdout c)).
      * exists [Run (list_devices simctl_path) None].
        repeat split; [exact Hone|simpl; lia..].
      * unfold bind, sleep.
        destruct (IH ((t ++ [Run (list_devices simctl_path) None])
                        ++ [Sleep 1])) as (new & Hnew & Hev & Hsl).
        exists ([Run (list_devices simctl_path) None] ++ [Sleep 1] ++ new).
        split; [rewrite Hnew, <- !app_assoc; reflexivity|]. split.
        -- apply Forall_app. split; [exact Hone|].
           apply Forall_app. split; [|exact Hev].
           constructor; [right; reflexivity|constructor].
        -- rewrite !seconds_slept_app.
           change (seconds_slept [Run (list_devices simctl_path) None]) with 0.
           change (seconds_slept [Sleep 1]) with 1. lia.
Qed.

(** Whatever the host answers, the wait issues nothing but the device
    listing command and one-second sleeps, and sleeps 60 seconds at most
    in total. *)
Theorem boot_wait_sleeps simctl_path udid h t :
  exists new,
    (wait_for_sim_to_boot simctl_path udid h t).2 = t ++ new /\
    Forall (fun e => e = Run (list_devices simctl_path) None \/ e = Sleep 1)
      new /\
    0 <= seconds_slept new <= 60.
Proof. apply (wait_loop_events 60). Qed.

(** ** Running the application: what stops before the launch *)

(** The application is launched only after the simulator has booted and
    the install command has succeeded: if the boot step raises, nothing is
    installed or launched; if the install command fails, its
    [CalledProcessError] is raised and no launch command is issued. *)
Theorem run_app_stops_before_launch simulator_udid developer_path simctl_path
    ios_application_output_path app_name h t :
  (forall e t1,
     boot_simulator developer_path simctl_path simulator_udid h t
       = (Raise e, t1) ->
     run_app_in_simulator simulator_udid developer_path simctl_path
       ios_application_output_path app_name h t = (Raise e, t1)) /\
  (forall t1 app_path,
     boot_simulator developer_path simctl_path simulator_udid h t
       = (Ok tt, t1) ->
     extract_app h ios_application_output_path app_name = Ok app_path ->
     let install := [simctl_path; "install"; simulator_udid; app_path] in
     returncode (run_process h t1 install) <> 0 ->
     run_app_in_simulator simulator_udid developer_path simctl_path
       ios_application_output_path app_name h t
     = (Raise (CalledProcessError (returncode (run_process h t1 install))
                 install),
        t1 ++ [Run install None])).
Proof.
  split.
  - intros e t1 Hboot. unfold run_app_in_simulator, bind at 1.
    rewrite Hboot. reflexivity.
  - intros t1 app_path Hboot Hextract install Hfail.
    unfold run_app_in_simulator, bind at 1. rewrite Hboot.
    unfold with_, extracted_app, bind, ask, lift, yield, ret, raise,
      subprocess_run.
    rewrite Hextract. simpl. fold install.
    apply Z.eqb_neq in Hfail. rewrite Hfail. reflexivity.
Qed.

Lemma run_app_stops_before_launch_witness :
  run_app_in_simulator "AAAA-1111" "/Xcode" "simctl" "bazel-bin/App" "App"
    (Scenario.failing "list") []
  = (Raise (CalledProcessError 1 (list_devices "simctl")),
     [Run (open_simulator "/Xcode" "AAAA-1111") None;
      Run (list_devices "simctl") None]) /\
  run_app_in_simulator "AAAA-1111" "/Xcode" "simctl" "bazel-bin/App" "App"
    (Scenario.booted_failing "install") []
  = (Raise (CalledProcessError 1
              ["simctl"; "install"; "AAAA-1111"; "bazel-bin/App"]),
     [Run (open_simulator "/Xcode" "AAAA-1111") None;
      Run (list_devices "simctl") None;
      Run ["simctl"; "install"; "AAAA-1111"; "bazel-bin/App"] None]).
Proof.
  split.
  - apply (proj1 (run_app_stops_before_launch "AAAA-1111" "/Xcode" "simctl"
                    "bazel-bin/App" "App" (Scenario.failing "list") [])).
    reflexivity.
  - apply (proj2 (run_app_stops_before_launch "AAAA-1111" "/Xcode" "simctl"
                    "bazel-bin/App" "App" (Scenario.booted_failing "install")
                    [])
             [Run (open_simulator "/Xcode" "AAAA-1111") None;
              Run (list_devices "simctl") None] "bazel-bin/App").
    + reflexivity.
    + reflexivity.
    + vm_compute. discriminate.
Defined.

(** ** The launch environment: nothing else leaks *)

(** Every entry of the launch environment has a name that starts with
    "SIMCTL_CHILD_", and its value is the value of the host variable with
    "IOS_" in place of that prefix, or is the "enable" of
    SIMCTL_CHILD_OS_ACTIVITY_DT_MODE: no other host variable reaches the
    application. Conversely every host variable IOS_x is passed on as
    SIMCTL_CHILD_x with its value, except where that "enable" replaces
    it. *)
Theorem launch_environ_only_forwards (environ : gmap string string) :
  (forall k' v,
     simctl_launch_environ_of environ !! k' = Some v ->
     Py.startswith k' "SIMCTL_CHILD_" = true /\
     (environ !! ("IOS_" +:+ Py.drop 13 k') = Some v \/
      k' = "SIMCTL_CHILD_OS_ACTIVITY_DT_MODE" /\ v = "enable")) /\
  (forall x v,
     environ !! ("IOS_" +:+ x) = Some v ->
     x <> "OS_ACTIVITY_DT_MODE" \/
       "IDE_DISABLED_OS_ACTIVITY_DT_MODE" ∈ dom environ ->
     simctl_launch_environ_of environ !! ("SIMCTL_CHILD_" +:+ x) = Some v).
Proof.
  split.
  - intros k' v. rewrite simctl_launch_environ_lookup.
    destruct (decide _) as [[-> _]|_].
    + intros [= <-]. split; [reflexivity|]. right. auto.
    + destruct (Py.startswith k' "SIMCTL_CHILD_"); [|discriminate].
      intros H. split; [reflexivity|]. left. exact H.
  - intros x v Hx Hkeep. rewrite simctl_launch_environ_lookup.
    rewrite decide_False.
    + rewrite (proj2 (startswith_app _ _)) by eauto.
      change 13%nat with (String.length "SIMCTL_CHILD_").
      rewrite drop_app. exact Hx.
    + intros [Hk Hide]. destruct Hkeep as [Hne|Hin]; [|exact (Hide Hin)].
      apply Hne.
      apply (append_inj_l "SIMCTL_CHILD_" x "OS_ACTIVITY_DT_MODE"), Hk.
Qed.

Lemma launch_environ_only_forwards_witness :
  simctl_launch_environ_of {[ "IOS_GREETING" := "hello" ]}
    !! "SIMCTL_CHILD_GREETING" = Some "hello".
Proof.
  apply (proj2 (launch_environ_only_forwards {[ "IOS_GREETING" := "hello" ]})
           "GREETING" "hello").
  - apply lookup_singleton_eq.
  - left. discriminate.
Defined.

(** ** The script as a whole *)

Lemma with_ios_simulator simctl_path minimum_os sim_device sim_os_version
    (body : string -> M unit) h t :
  with_ (ios_simulator simctl_path minimum_os sim_device sim_os_version)
    body h t
  = (udid <- persistent_ios_simulator simctl_path minimum_os sim_device
               sim_os_version ;;
     body udid) h t.
Proof.
  unfold ios_simulator. rewrite with_bind. unfold bind at 1.
  destruct (persistent_ios_simulator simctl_path minimum_os sim_device
              sim_os_version h t) as [[udid|e] t1]; [|reflexivity].
  unfold with_, yield, ret, raise. simpl.
  destruct (body udid h t1) as [[[]|e] t2]; reflexivity.
Qed.

Lemma int_raises_value_error s e :
  Py.int s = Raise e -> exists literal, e = ValueError literal.
Proof.
  unfold Py.int. destruct (match Py.int_rstrip (Py.int_lstrip s) with
                           | EmptyString => _
                           | String _ _ => _
                           end); [discriminate|].
  intros [= <-]. eauto.
Qed.

Lemma version_raises_value_error v e :
  minimum_os_to_simctl_runtime_version v = Raise e ->
  exists literal, e = ValueError literal.
Proof.
  destruct (first_three_components_length v) as (c1 & c2 & c3 & Hc).
  rewrite (version_key_unfold v c1 c2 c3 Hc).
  destruct (Py.int c1) eqn:H1; simpl;
    [|intros [= <-]; eapply int_raises_value_error; eauto].
  destruct (Py.int c2) eqn:H2; simpl;
    [|intros [= <-]; eapply int_raises_value_error; eauto].
  destruct (Py.int c3) eqn:H3; simpl;
    [discriminate|intros [= <-]; eapply int_raises_value_error; eauto].
Qed.

(** A minimum OS that does not parse is fatal for the whole script: once
    the developer directory and the catalog have been read, the
    [ValueError] of the conversion passes the [__main__] block, which only
    handles [CalledProcessError] and [KeyboardInterrupt]; no simulator is
    booted or created. *)
Theorem script_invalid_minimum_os sim_device sim_os_version
    ios_application_output_path app_name minimum_os h t e simctl_data :
  let xcode_select := ["xcode-select"; "-p"] in
  let developer_path := Py.rstrip (stdout (run_process h t xcode_select)) in
  let simctl_path :=
    Py.path_join (Py.path_join (Py.path_join developer_path "usr") "bin")
      "simctl" in
  let listing := [simctl_path; "list"; "-j"] in
  let listed := run_process h (t ++ [Run xcode_select None]) listing in
  returncode (run_process h t xcode_select) = 0 ->
  json_load h (stdout listed) = Some simctl_data ->
  returncode listed = 0 ->
  minimum_os_to_simctl_runtime_version minimum_os = Raise e ->
  run_script "Darwin" sim_device sim_os_version ios_application_output_path
    app_name minimum_os h t
  = (Raise e, t ++ [Run xcode_select None; Run listing None]).
Proof.
  intros xcode_select developer_path simctl_path listing listed
    Hxcode Hjson Hlisted Hversion.
  destruct (version_raises_value_error minimum_os e Hversion) as [lit ->].
  unfold run_script, main_block, main. simpl.
  unfold bind at 1, subprocess_run at 1.
  fold xcode_select. rewrite Hxcode. cbn [andb negb Z.eqb].
  fold developer_path. fold simctl_path.
  rewrite with_ios_simulator. unfold bind at 1.
  unfold persistent_ios_simulator, bind at 1.
  rewrite (discover_raises_version_error simctl_path minimum_os sim_device
             sim_os_version (ValueError lit) h _ simctl_data Hversion
             Hjson Hlisted).
  rewrite <- app_assoc. reflexivity.
Qed.

Lemma script_invalid_minimum_os_witness :
  run_script "Darwin" "iPhone 8" "13.2" "bazel-bin/App" "App" "13.x"
    (Fixture.quiet_host "/Xcode" Catalog.types_only) []
  = (Raise (ValueError "x"),
     [Run ["xcode-select"; "-p"] None;
      Run ["/Xcode/usr/bin/simctl"; "list"; "-j"] None]).
Proof.
  apply (script_invalid_minimum_os "iPhone 8" "13.2" "bazel-bin/App" "App"
           "13.x" (Fixture.quiet_host "/Xcode" Catalog.types_only) []
           (ValueError "x") Catalog.types_only); reflexivity.
Defined.

(** On a host that is not a Mac the script raises before any command is
    issued. On a Mac, a failing [xcode-select -p] ends the script without
    an exception (the [CalledProcessError] is handled by the [__main__]
    block) and without any further command. *)
Theorem script_early_exits sim_device sim_os_version
    ios_application_output_path app_name minimum_os h t :
  (forall platform_system,
     platform_system <> "Darwin" ->
     run_script platform_system sim_device sim_os_version
       ios_application_output_path app_name minimum_os h t
     = (Raise (Exception "Cannot run iOS targets on a non-mac machine."), t)) /\
  (returncode (run_process h t ["xcode-select"; "-p"]) <> 0 ->
   run_script "Darwin" sim_device sim_os_version ios_application_output_path
     app_name minimum_os h t
   = (Ok tt, t ++ [Run ["xcode-select"; "-p"] None])).
Proof.
  split.
  - intros platform_system Hp. unfold run_script.
    destruct (String.eqb_spec platform_system "Darwin"); [contradiction|].
    reflexivity.
  - intros Hfail. unfold run_script, main_block, main. simpl.
    unfold bind, subprocess_run.
    apply Z.eqb_neq in Hfail. rewrite Hfail. reflexivity.
Qed.

Lemma script_early_exits_witness :
  run_script "Linux" "iPhone 8" "13.2" "bazel-bin/App" "App" "13.0"
    (Scenario.failing "-p") []
  = (Raise (Exception "Cannot run iOS targets on a non-mac machine."), []) /\
  run_script "Darwin" "iPhone 8" "13.2" "bazel-bin/App" "App" "13.0"
    (Scenario.failing "-p") []
  = (Ok tt, [Run ["xcode-select"; "-p"] None]).
Proof.
  destruct (script_early_exits "iPhone 8" "13.2" "bazel-bin/App" "App" "13.0"
              (Scenario.failing "-p") []) as [Hplatform Hxcode].
  split.
  - apply Hplatform. discriminate.
  - apply Hxcode. vm_compute. discriminate.
Defined.

(** ** Persistent mode: where the returned udid comes from *)

(** When the persistent path returns, the udid is that of an available
    instance of the catalog, or it is the output, without trailing
    whitespace, of the create command it has just issued. *)
Theorem persistent_udid_origin simctl_path minimum_os sim_device
    sim_os_version h t simctl_data udid t' :
  let listing := [simctl_path; "list"; "-j"] in
  let listed := t ++ [Run listing None] in
  json_load h (stdout (run_process h t listing)) = Some simctl_data ->
  persistent_ios_simulator simctl_path minimum_os sim_device sim_os_version
    h t = (Ok udid, t') ->
  (exists runtime_identifier instances device,
     (runtime_identifier, instances) ∈ devices simctl_data /\
     device ∈ instances /\
     d_isAvailable device = true /\
     d_udid device = udid) \/
  (exists name identifier,
     let create := [simctl_path; "create"; name; identifier] in
     udid = Py.rstrip (stdout (run_process h listed create)) /\
     t' = listed ++ [Run create None]).
Proof.
  intros listing listed Hjson.
  unfold persistent_ios_simulator, bind at 1,
    discover_best_compatible_simulator.
  fold listing. rewrite Hjson. fold listed.
  destruct (negb (returncode _ =? 0)); [discriminate|].
  destruct (minimum_os_to_simctl_runtime_version minimum_os)
    as [minimum_runtime_version|e]; [|discriminate].
  unfold best_compatible. rewrite compatible_devices_sorted.
  destruct (last (sort Device.lt _)) as [best|] eqn:Hlast.
  - intros Hret. left.
    apply last_Some_elem_of, elem_of_sort, elem_of_candidate_devices in Hlast
      as (rid & insts & Hin & _ & Hdev & Ha & _).
    exists rid, insts, (Device.device best).
    repeat (split; [assumption|]).
    destruct (last (compatible_device_types _ _ _));
      (destruct (Device.is_shutdown best);
       [unfold bind, subprocess_run, ret in Hret; cbn [andb] in Hret;
        destruct (negb (returncode _ =? 0)); [discriminate|];
        injection Hret as <- _; reflexivity
       |injection Hret as <- _; reflexivity]).
  - destruct (last (compatible_device_types _ _ _)) as [type|];
      [|discriminate].
    intros Hret. right.
    unfold bind, subprocess_run, ret in Hret. cbn [andb] in Hret.
    destruct (negb (returncode _ =? 0)); [discriminate|].
    injection Hret as <- <-.
    eexists _, _. split; reflexivity.
Qed.

Lemma persistent_udid_origin_witness :
  exists runtime_identifier instances device,
    (runtime_identifier, instances) ∈ devices Catalog.with_booted_pad /\
    device ∈ instances /\
    d_isAvailable device = true /\
    d_udid device = "BBBB-2222".
Proof.
  destruct (persistent_udid_origin "simctl" "13.0" EmptyString EmptyString
              (Fixture.quiet_host EmptyString Catalog.with_booted_pad) []
              Catalog.with_booted_pad "BBBB-2222"
              [Run ["simctl"; "list"; "-j"] None])
    as [Hcatalog|(name & identifier & Hcreate & Ht')].
  - reflexivity.
  - vm_compute. reflexivity.
  - exact Hcatalog.
  - exfalso. apply (f_equal length) in Ht'. simpl in Ht'. lia.
Defined.
